(** * APA reference formatting: fetch_apa_excel.py and fetch_apa_word.py

    A shallow embedding of the two scripts of [reference_format] and the
    properties of their citation formatting.  Both scripts share the same
    skeleton: [fetch_metadata] turns the first CrossRef hit for a title
    into a metadata dictionary (or into an ["Error"] dictionary), and
    [format_apa] turns that dictionary into a reference.

    Conventions of the embedding.
    - A Python [str] is a [string]; its characters are the code points
      below 256.
    - A Python dictionary whose keys are inspected at run time (the
      metadata dictionary) is a [gmap string value].  The JSON objects
      of the CrossRef answer are records whose optional keys are
      [option] fields, typed after the CrossRef schema.
    - A Python exception is a value of [exn]; code that may raise lives
      in the [result] monad.
    - The HTTP exchange itself is an input: [fetch_metadata] receives
      what [requests.get(...).json()] evaluated to, or the exception it
      raised. *)

From Stdlib Require Import Ascii.
From stdpp Require Import base strings gmap list pretty.

Local Open Scope string_scope.
Local Open Scope Z_scope.

(** ** Exceptions *)

Inductive exn : Type :=
  | IndexError (msg : string)
  | KeyError (key : string)
  | RequestError (msg : string).

(** [str(e)] *)
Definition str_exn (e : exn) : string :=
  match e with
  | IndexError msg => msg
  | KeyError key => "'" +:+ key +:+ "'"
  | RequestError msg => msg
  end.

Inductive result (A : Type) : Type :=
  | Ok (a : A)
  | Raise (e : exn).
Arguments Ok {A} a.
Arguments Raise {A} e.

Global Instance result_bind : MBind result := λ A B k r,
  match r with
  | Ok a => k a
  | Raise e => Raise e
  end.

(** A list comprehension whose body may raise. *)
Fixpoint comprehension {A B : Type} (f : A → result B) (l : list A)
  : result (list B) :=
  match l with
  | [] => Ok []
  | x :: l' => y ← f x ; ys ← comprehension f l' ; Ok (y :: ys)
  end.

(** ** Python sequences *)

Definition list_index_out_of_range : exn :=
  IndexError "list index out of range".
Definition string_index_out_of_range : exn :=
  IndexError "string index out of range".

(** [l[i]], with Python's negative indices. *)
Definition getitem {A : Type} (l : list A) (i : Z) : result A :=
  let n := Z.of_nat (length l) in
  let j := if i <? 0 then i + n else i in
  if (j <? 0) || (n <=? j) then Raise list_index_out_of_range
  else match l !! Z.to_nat j with
       | Some x => Ok x
       | None => Raise list_index_out_of_range
       end.

(** [l[:j]], with Python's negative bounds. *)
Definition slice_to {A : Type} (l : list A) (j : Z) : list A :=
  let n := Z.of_nat (length l) in
  let k := if j <? 0 then Z.max 0 (j + n) else j in
  take (Z.to_nat k) l.

(** [s[0]] on a string: a string of one character. *)
Definition str_getitem0 (s : string) : result string :=
  match s with
  | "" => Raise string_index_out_of_range
  | String c _ => Ok (String c "")
  end.

(** [sep.join(l)] *)
Fixpoint join (sep : string) (l : list string) : string :=
  match l with
  | [] => ""
  | [x] => x
  | x :: l' => x +:+ sep +:+ join sep l'
  end.

(** [str.isspace] on one character, for the code points below 256:
    TAB, LF, VT, FF, CR, FS, GS, RS, US, SPACE, NEL and NBSP. *)
Definition isspace (c : ascii) : bool :=
  let n := nat_of_ascii c in
  ((9 <=? n)%nat && (n <=? 13)%nat) || ((28 <=? n)%nat && (n <=? 32)%nat)
  || (n =? 133)%nat || (n =? 160)%nat.

(** [s.split()] without arguments: the maximal runs of characters that are
    not white space, in order.  [tok] is the run being read. *)
Fixpoint split_from (tok : string) (s : string) : list string :=
  match s with
  | "" => if decide (tok = "") then [] else [tok]
  | String c s' =>
      if isspace c then
        (if decide (tok = "") then [] else [tok]) ++ split_from "" s'
      else split_from (tok +:+ String c "") s'
  end.

Definition split (s : string) : list string := split_from "" s.

(** Truthiness of a string: [if s]. *)
Definition truthy (s : string) : bool := bool_decide (s ≠ "").

(** ** Values of the metadata dictionary *)

Inductive value : Type :=
  | VStr (s : string)
  | VInt (n : Z).

Global Instance value_eq_dec : EqDecision value.
Proof. solve_decision. Defined.

(** What an f-string prints for [{v}]. *)
Definition format_value (v : value) : string :=
  match v with
  | VStr s => s
  | VInt n => pretty n
  end.

(** [m[k]] on a dictionary. *)
Definition dict_getitem (m : gmap string value) (k : string) : result value :=
  match m !! k with
  | Some v => Ok v
  | None => Raise (KeyError k)
  end.

(** ** The CrossRef answer *)

(** One element of [item["author"]]; [None] is an absent key. *)
Record author : Type := Author {
  given : option string;
  family : option string
}.

(** [item["published-print"]] *)
Record date_obj : Type := DateObj {
  date_parts : option (list (list (option Z)))
}.

(** One element of [data["message"]["items"]]. *)
Record item : Type := Item {
  item_author : option (list author);
  published_print : option date_obj;
  container_title : option (list string);
  volume : option string;
  issue : option string;
  page : option string;
  DOI : option string
}.

Record message : Type := Message {
  items : option (list item)
}.

(** [response.json()] *)
Record response_data : Type := ResponseData {
  data_message : option message
}.

(** ** The author loop, the same text in both scripts

    [[
    for author in item["author"]:
        given = author.get("given", "")
        family = author.get("family", "")
        if given and family:
            initials = " ".join([name[0] + "." for name in given.split()])
            authors.append(f"{family}, {initials}")
    ]] *)

Definition initials_of (given : string) : result string :=
  parts ← comprehension (λ name, c ← str_getitem0 name ; Ok (c +:+ "."))
                        (split given) ;
  Ok (join " " parts).

Fixpoint author_loop (l : list author) (authors : list string)
  : result (list string) :=
  match l with
  | [] => Ok authors
  | a :: l' =>
      let given := default "" (given a) in
      let family := default "" (family a) in
      if truthy given && truthy family then
        initials ← initials_of given ;
        author_loop l' (authors ++ [family +:+ ", " +:+ initials])
      else author_loop l' authors
  end.

(** [authors = []] followed by the guarded loop. *)
Definition collect_authors (it : item) : result (list string) :=
  match item_author it with
  | Some l => author_loop l []
  | None => Ok []
  end.

(** ** The other fields, the same text in both scripts *)

(** [o[k]] on a JSON object whose key [k] is the optional field [o]. *)
Definition json_getitem {A : Type} (o : option A) (k : string) : result A :=
  match o with
  | Some x => Ok x
  | None => Raise (KeyError k)
  end.

(** [item.get("published-print", {}).get("date-parts", [[None]])[0][0]
     or "n.d."] *)
Definition year_of (it : item) : result value :=
  let parts :=
    default [[None]]
      (date_parts (default (DateObj None) (published_print it))) in
  first ← getitem parts 0;
  y ← getitem first 0;
  Ok (match y with
      | Some n => if decide (n = 0) then VStr "n.d." else VInt n
      | None => VStr "n.d."
      end).

(** [item.get("container-title", ["N/A"])[0] or "N/A"] *)
Definition journal_of (it : item) : result value :=
  j ← getitem (default ["N/A"] (container_title it)) 0;
  Ok (VStr (if truthy j then j else "N/A")).

(** The guard
    ["message" in data and "items" in data["message"]
      and len(data["message"]["items"]) > 0]. *)
Definition has_items (data : response_data) : bool :=
  match data_message data with
  | Some msg =>
      match items msg with
      | Some l => bool_decide (0 < length l)%nat
      | None => false
      end
  | None => false
  end.

(** [data["message"]["items"][0]] *)
Definition first_item (data : response_data) : result item :=
  msg ← json_getitem (data_message data) "message";
  l ← json_getitem (items msg) "items";
  getitem l 0.

Definition no_data : gmap string value :=
  {[ "Error" := VStr "No data found for this title." ]}.

(** [try: ... except Exception as e: return {"Error": str(e)}] *)
Definition catch_all (r : result (gmap string value)) : gmap string value :=
  match r with
  | Ok m => m
  | Raise e => {[ "Error" := VStr (str_exn e) ]}
  end.

(** [f"({metadata['Issue']})" if metadata["Issue"] != "N/A" else ""] *)
Definition issue_segment (m : gmap string value) : result string :=
  v ← dict_getitem m "Issue";
  if decide (v ≠ VStr "N/A") then
    v' ← dict_getitem m "Issue"; Ok ("(" +:+ format_value v' +:+ ")")
  else Ok "".

(** [f"https://doi.org/{metadata['DOI']}" if metadata["DOI"] != "N/A"
     else "N/A"] *)
Definition doi_segment (m : gmap string value) : result string :=
  v ← dict_getitem m "DOI";
  if decide (v ≠ VStr "N/A") then
    v' ← dict_getitem m "DOI"; Ok ("https://doi.org/" +:+ format_value v')
  else Ok "N/A".

(** ** fetch_apa_excel.py *)

Module Excel.

(** Lines 33 to 41: the authors combined by their number. *)
Definition author_string (authors : list string) : result string :=
  if decide (length authors = 1%nat) then getitem authors 0
  else if decide (length authors = 2%nat) then Ok (join " & " authors)
  else if decide (2 < length authors)%nat then
    last ← getitem authors (-1);
    Ok (join ", " (slice_to authors (-1)) +:+ ", & " +:+ last)
  else Ok "N/A".

(** Lines 16 to 54: the metadata of the first item. *)
Definition metadata_of (title : string) (it : item)
  : result (gmap string value) :=
  authors ← collect_authors it;
  author_string ← author_string authors;
  year ← year_of it;
  journal ← journal_of it;
  Ok (<["Author" := VStr author_string]>
      (<["Year" := year]>
      (<["Title" := VStr title]>
      (<["Journal" := journal]>
      (<["Volume" := VStr (default "N/A" (volume it))]>
      (<["Issue" := VStr (default "N/A" (issue it))]>
      (<["Pages" := VStr (default "N/A" (page it))]>
      (<["DOI" := VStr (default "N/A" (DOI it))]> ∅)))))))).

Definition fetch_metadata (title : string) (response : result response_data)
  : gmap string value :=
  catch_all
    (data ← response;
     if has_items data then
       it ← first_item data;
       metadata_of title it
     else Ok no_data).

Definition format_apa (metadata : gmap string value) : result value :=
  if decide (is_Some (metadata !! "Error")) then
    dict_getitem metadata "Error"
  else
    author ← dict_getitem metadata "Author";
    year ← dict_getitem metadata "Year";
    title ← dict_getitem metadata "Title";
    journal ← dict_getitem metadata "Journal";
    volume ← dict_getitem metadata "Volume";
    issue ← issue_segment metadata;
    pages ← dict_getitem metadata "Pages";
    doi ← doi_segment metadata;
    Ok (VStr (format_value author +:+ " (" +:+ format_value year +:+ "). "
              +:+ format_value title +:+ ". *" +:+ format_value journal
              +:+ "*, " +:+ format_value volume +:+ issue +:+ ", "
              +:+ format_value pages +:+ ". " +:+ doi)).

End Excel.

(** ** fetch_apa_word.py *)

(** What [format_apa] of the document script returns: the dictionary of
    the reference, or the value found under ["Error"]. *)
Inductive reference : Type :=
  | RefDict (d : gmap string value)
  | RefValue (v : value).

Module Word.

(** Line 30: [", ".join(authors) if authors else "N/A"]. *)
Definition author_string (authors : list string) : result string :=
  if decide (authors ≠ []) then Ok (join ", " authors) else Ok "N/A".

(** Lines 17 to 40: the metadata of the first item. *)
Definition metadata_of (title : string) (it : item)
  : result (gmap string value) :=
  authors ← collect_authors it;
  author_string ← author_string authors;
  year ← year_of it;
  journal ← journal_of it;
  Ok (<["Author" := VStr author_string]>
      (<["Year" := year]>
      (<["Title" := VStr title]>
      (<["Journal" := journal]>
      (<["Volume" := VStr (default "N/A" (volume it))]>
      (<["Issue" := VStr (default "N/A" (issue it))]>
      (<["Pages" := VStr (default "N/A" (page it))]>
      (<["DOI" := VStr (default "N/A" (DOI it))]> ∅)))))))).

Definition fetch_metadata (title : string) (response : result response_data)
  : gmap string value :=
  catch_all
    (data ← response;
     if has_items data then
       it ← first_item data;
       metadata_of title it
     else Ok no_data).

Definition format_apa (metadata : gmap string value) : result reference :=
  if decide (is_Some (metadata !! "Error")) then
    v ← dict_getitem metadata "Error"; Ok (RefValue v)
  else
    author ← dict_getitem metadata "Author";
    year ← dict_getitem metadata "Year";
    title ← dict_getitem metadata "Title";
    journal ← dict_getitem metadata "Journal";
    volume ← dict_getitem metadata "Volume";
    issue ← issue_segment metadata;
    pages ← dict_getitem metadata "Pages";
    doi ← doi_segment metadata;
    Ok (RefDict
          (<["Author" := author]>
          (<["Year" := year]>
          (<["Title" := title]>
          (<["Journal" := journal]>
          (<["Volume" := volume]>
          (<["Issue" := VStr issue]>
          (<["Pages" := pages]>
          (<["DOI" := VStr doi]> ∅))))))))).

End Word.

(** ** Vocabulary of the statements *)

Fixpoint str_forallb (p : ascii → bool) (s : string) : bool :=
  match s with
  | "" => true
  | String c s' => p c && str_forallb p s'
  end.

Fixpoint str_filter (p : ascii → bool) (s : string) : string :=
  match s with
  | "" => ""
  | String c s' => if p c then String c (str_filter p s') else str_filter p s'
  end.

Definition nonspace (c : ascii) : bool := negb (isspace c).

(** A token of [split]: not empty, and free of white space. *)
Definition token (t : string) : Prop :=
  t ≠ "" ∧ str_forallb nonspace t = true.

(** The first character of a name, as a string. *)
Definition initial (name : string) : string :=
  match name with
  | "" => ""
  | String c _ => String c ""
  end.

Definition initials (given : string) : string :=
  join " " (map (λ name, initial name +:+ ".") (split given)).

(** The guard [if given and family] of the author loop. *)
Definition usable (a : author) : bool :=
  truthy (default "" (given a)) && truthy (default "" (family a)).

(** What the loop appends for a usable author. *)
Definition entry (a : author) : string :=
  default "" (family a) +:+ ", " +:+ initials (default "" (given a)).

Definition entries (l : list author) : list string :=
  map entry (List.filter usable l).

(** The keys of a metadata dictionary that is not an error. *)
Definition fields : list string :=
  ["Author"; "Year"; "Title"; "Journal"; "Volume"; "Issue"; "Pages"; "DOI"].

Definition well_shaped (m : gmap string value) : Prop :=
  m !! "Error" = None ∧ Forall (λ k, is_Some (m !! k)) fields.

Definition string_valued (m : gmap string value) (k : string) : Prop :=
  ∃ s, m !! k = Some (VStr s).

(** A CrossRef answer with one hit. *)
Definition one_hit (it : item) : response_data :=
  ResponseData (Some (Message (Some [it]))).

Definition mk_author (g f : string) : author := Author (Some g) (Some f).

(** An optional string that the guard of the author loop rejects. *)
Definition missing_or_empty (o : option string) : Prop :=
  o = None ∨ o = Some "".

Definition unusable (a : author) : Prop :=
  missing_or_empty (given a) ∨ missing_or_empty (family a).

(** The Author entry as a function of [item["author"]] alone. *)
Definition author_field (combine : list string → result string)
    (authors : option (list author)) : result string :=
  names ← match authors with
          | Some l => author_loop l []
          | None => Ok []
          end;
  combine names.

(** *** Sample answers *)

Definition authors_only (l : list author) : item :=
  Item (Some l) None None None None None None.

Definition smith_doe : item :=
  authors_only [mk_author "John" "Smith"; mk_author "Jane" "Doe"].

Definition smith_doe_lee : item :=
  authors_only
    [mk_author "John" "Smith"; mk_author "Jane" "Doe"; mk_author "Kim" "Lee"].

Definition study_x : item :=
  Item (Some [mk_author "Ann" "Lee"])
       (Some (DateObj (Some [[Some 2020]])))
       (Some ["J. of Things"]) (Some "5") (Some "2") (Some "10-20")
       (Some "10.1/abc").

(** No key at all: every field takes its placeholder. *)
Definition bare_item : item := Item None None None None None None None.

(** Two answers that differ in volume and issue only. *)
Definition volume_5_2 : item :=
  Item None None None (Some "5(2)") None None None.

Definition volume_5_issue_2 : item :=
  Item None None None (Some "5") (Some "2") None None.

(** The issue and identifier segments of a reference. *)
Definition issue_text (issue : value) : string :=
  if decide (issue = VStr "N/A") then ""
  else "(" +:+ format_value issue +:+ ")".

Definition doi_text (doi : value) : string :=
  if decide (doi = VStr "N/A") then "N/A"
  else "https://doi.org/" +:+ format_value doi.

(** The dictionary literal that both [fetch_metadata] return. *)
Definition metadata_dict (author : string) (year : value) (title : string)
    (journal : value) (it : item) : gmap string value :=
  <["Author" := VStr author]>
  (<["Year" := year]>
  (<["Title" := VStr title]>
  (<["Journal" := journal]>
  (<["Volume" := VStr (default "N/A" (volume it))]>
  (<["Issue" := VStr (default "N/A" (issue it))]>
  (<["Pages" := VStr (default "N/A" (page it))]>
  (<["DOI" := VStr (default "N/A" (DOI it))]> ∅))))))).

(** ** save_to_word (fetch_apa_word.py, lines 75 to 91)

    The document is built by calls to the docx library.  The model records
    the calls in the order the script issues them, with their arguments;
    the calls themselves are assumed to return. *)

(** [doc.add_paragraph()] is [AddParagraph None] and
    [doc.add_paragraph(ref)] is [AddParagraph (Some ref)]. *)
Inductive docx_call : Type :=
  | AddHeading (text : string) (level : Z)
  | AddParagraph (text : option reference)
  | AddRun (text : value)
  | SetBold (b : bool)
  | SetItalic (b : bool)
  | Save (path : string).

(** The body of the loop, for one reference.  The script reads the keys
    between the calls, in the order Author, Year, Title, Journal, Volume,
    Issue, Pages, DOI; a missing key raises before the document is saved,
    so the calls are given only when every key was found. *)
Definition paragraph_calls (ref : reference) : result (list docx_call) :=
  match ref with
  | RefDict d =>
      if decide (is_Some (d !! "Author")) then
        author ← dict_getitem d "Author";
        year ← dict_getitem d "Year";
        title ← dict_getitem d "Title";
        journal ← dict_getitem d "Journal";
        volume ← dict_getitem d "Volume";
        issue ← dict_getitem d "Issue";
        pages ← dict_getitem d "Pages";
        doi ← dict_getitem d "DOI";
        Ok [ AddParagraph None;
             AddRun (VStr (format_value author +:+ " (" +:+ format_value year
                           +:+ "). " +:+ format_value title +:+ ". "));
             SetBold false;
             AddRun journal;
             SetItalic true;
             AddRun (VStr (", " +:+ format_value volume +:+ format_value issue
                           +:+ ", " +:+ format_value pages +:+ ". "
                           +:+ format_value doi)) ]
      else Ok [ AddParagraph (Some ref) ]
  | RefValue _ => Ok [ AddParagraph (Some ref) ]
  end.

Fixpoint paragraphs_loop (references : list reference)
  : result (list docx_call) :=
  match references with
  | [] => Ok []
  | ref :: rest =>
      calls ← paragraph_calls ref;
      more ← paragraphs_loop rest;
      Ok (calls ++ more)%list
  end.

Definition save_to_word (references : list reference) (output_word : string)
  : result (list docx_call) :=
  body ← paragraphs_loop references;
  Ok (AddHeading "APA References" 1 :: body ++ [Save output_word])%list.

(** ** The drivers: process_titles and process_titles_to_word

    [read_csv] stands for [pd.read_csv]: it gives the columns of the file, in
    order and with distinct names, or the exception raised.  The cells of
    the input are strings.  [requests_get i title] stands for the exchange
    with CrossRef of the call number [i], made for [title]. *)

Inductive io_exn : Type :=
  | FileNotFoundError (msg : string)
  | ValueError (msg : string)
  | OtherException (msg : string).

Inductive attempt (A : Type) : Type :=
  | Done (a : A)
  | Failed (e : io_exn).
Arguments Done {A} a.
Arguments Failed {A} e.

(** An exception of the formatting code, seen from the driver: it is
    neither a [FileNotFoundError] nor a [ValueError]. *)
Definition escalate {A : Type} (r : result A) : attempt A :=
  match r with
  | Ok a => Done a
  | Raise e => Failed (OtherException (str_exn e))
  end.

(** What the driver did: the line it printed and what it wrote. *)
Record outcome (A : Type) : Type := Outcome {
  printed : string;
  written : option A
}.
Arguments Outcome {A} printed written.
Arguments printed {A} o.
Arguments written {A} o.

(** The three [except] clauses of both drivers. *)
Definition report {A : Type} (e : io_exn) : outcome A :=
  match e with
  | FileNotFoundError msg => Outcome ("Error: " +:+ msg) None
  | ValueError msg => Outcome ("Error: " +:+ msg) None
  | OtherException msg => Outcome ("Unexpected error: " +:+ msg) None
  end.

(** [df[name]] for a frame whose column names are distinct. *)
Fixpoint column {A : Type} (df : list (string * list A)) (name : string)
  : option (list A) :=
  match df with
  | [] => None
  | (n, cells) :: rest => if decide (n = name) then Some cells
                          else column rest name
  end.

(** [df[name] = cells]: the column is replaced where it stands, or added
    as the last one. *)
Definition set_column {A : Type} (name : string) (cells : list A)
    (df : list (string * list A)) : list (string * list A) :=
  if decide (is_Some (column df name)) then
    map (λ c, if decide (c.1 = name) then (name, cells) else c) df
  else (df ++ [(name, cells)])%list.

(** The frame read from the file, its cells seen as values. *)
Definition frame_values (df : list (string * list string))
  : list (string * list value) :=
  map (λ c, (c.1, map VStr c.2)) df.

(** The loop over the titles, the same text in both drivers:
    [[
    for title in df["Title"]:
        metadata = fetch_metadata(title)
        apa_reference = format_apa(metadata)
        apa_references.append(apa_reference)
    ]] *)
Fixpoint references_loop {A : Type}
    (fetch_metadata : string → result response_data → gmap string value)
    (format_apa : gmap string value → result A)
    (requests_get : nat → string → result response_data)
    (i : nat) (titles : list string) (apa_references : list A)
  : result (list A) :=
  match titles with
  | [] => Ok apa_references
  | title :: rest =>
      let metadata := fetch_metadata title (requests_get i title) in
      apa_reference ← format_apa metadata;
      references_loop fetch_metadata format_apa requests_get (S i) rest
        (apa_references ++ [apa_reference])%list
  end.

Definition missing_title_column : io_exn :=
  ValueError "Input CSV must contain a 'Title' column.".

(** fetch_apa_excel.py, lines 79 to 104.  What is written is the path and
    the frame given to [to_csv]. *)
Definition process_titles
    (read_csv : string → attempt (list (string * list string)))
    (requests_get : nat → string → result response_data)
    (input_csv output_csv : string)
  : outcome (string * list (string * list value)) :=
  match read_csv input_csv with
  | Failed e => report e
  | Done df =>
      match column df "Title" with
      | None => report missing_title_column
      | Some titles =>
          match escalate (references_loop Excel.fetch_metadata
                            Excel.format_apa requests_get 0 titles []) with
          | Failed e => report e
          | Done apa_references =>
              Outcome ("APA formatted references saved to " +:+ output_csv)
                (Some (output_csv,
                       set_column "APA Reference" apa_references
                         (frame_values df)))
          end
      end
  end.

(** fetch_apa_word.py, lines 93 to 117.  What is written is the list of
    the calls made to the docx library. *)
Definition process_titles_to_word
    (read_csv : string → attempt (list (string * list string)))
    (requests_get : nat → string → result response_data)
    (input_csv output_word : string)
  : outcome (list docx_call) :=
  match read_csv input_csv with
  | Failed e => report e
  | Done df =>
      match column df "Title" with
      | None => report missing_title_column
      | Some titles =>
          match escalate (references_loop Word.fetch_metadata
                            Word.format_apa requests_get 0 titles []) with
          | Failed e => report e
          | Done apa_references =>
              match escalate (save_to_word apa_references output_word) with
              | Failed e => report e
              | Done calls =>
                  Outcome
                    ("APA formatted references saved to " +:+ output_word)
                    (Some calls)
              end
          end
      end
  end.

(** The first key that [format_apa] reads and does not find. *)
Definition first_missing (m : gmap string value) : option string :=
  List.find (λ k, bool_decide (m !! k = None)) fields.

(** The number of paragraphs that a list of calls opens. *)
Definition paragraphs (calls : list docx_call) : nat :=
  length (List.filter (λ c, match c with AddParagraph _ => true | _ => false end)
            calls).

(** *** Sample inputs of the drivers *)

Definition titles_csv : list (string * list string) :=
  [("Id", ["1"; "2"]); ("Title", ["Study X"; "Unknown work"])].

Definition sample_read (path : string)
  : attempt (list (string * list string)) :=
  if decide (path = "titles.csv") then Done titles_csv
  else Failed (FileNotFoundError
                 ("[Errno 2] No such file or directory: '" +:+ path +:+ "'")).

Definition sample_get (i : nat) (title : string) : result response_data :=
  if decide (title = "Study X") then Ok (one_hit study_x)
  else Ok (ResponseData (Some (Message (Some [])))).

(** What [fetch_metadata] returns when an index is out of range. *)
Definition index_error_dict : gmap string value :=
  {[ "Error" := VStr "list index out of range" ]}.

(** The date of [published-print] has no part to read: ["date-parts"] is
    [[]] or starts with [[]]. *)
Definition empty_date_parts (it : item) : Prop :=
  match published_print it ≫= date_parts with
  | Some [] | Some ([] :: _) => True
  | _ => False
  end.

(** The answer has no hit: no ["message"], no ["items"], or no item. *)
Definition no_hit (d : response_data) : Prop :=
  match data_message d ≫= items with
  | Some (_ :: _) => False
  | _ => True
  end.

(** The dictionary literal that [format_apa] of the document script
    returns. *)
Definition reference_dict (author year title journal volume : value)
    (issue : string) (pages : value) (doi : string) : gmap string value :=
  <["Author" := author]>
  (<["Year" := year]>
  (<["Title" := title]>
  (<["Journal" := journal]>
  (<["Volume" := volume]>
  (<["Issue" := VStr issue]>
  (<["Pages" := pages]>
  (<["DOI" := VStr doi]> ∅))))))).

(** Calls that belong to the paragraphs of a document. *)
Definition paragraph_call (c : docx_call) : Prop :=
  match c with
  | AddHeading _ _ | Save _ => False
  | _ => True
  end.

(** A file without "Title" column. *)
Definition untitled_read (path : string)
  : attempt (list (string * list string)) :=
  Done [("Name", ["Study X"])].

(** Case analysis on the results bound in [H]. *)
Ltac bind_cases H :=
  unfold mbind, result_bind in H;
  repeat match type of H with
         | context [match ?r with Ok _ => _ | Raise _ => _ end] =>
             let E := fresh "E" in destruct r eqn:E; try discriminate H
         end.

(** ** Properties of the sequence operations *)

Lemma str_app_cons c s t : String c s +:+ t = String c (s +:+ t).
Proof. reflexivity. Qed.

Lemma str_app_nil_l t : "" +:+ t = t.
Proof. reflexivity. Qed.

Lemma str_app_nil_r s : s +:+ "" = s.
Proof. induction s as [|c s IH]; [done|]. by rewrite str_app_cons, IH. Qed.

Lemma str_app_assoc s t u : (s +:+ t) +:+ u = s +:+ (t +:+ u).
Proof. induction s as [|c s IH]; [done|]. by rewrite !str_app_cons, IH. Qed.

Lemma str_app_eq_nil s t : s +:+ t = "" → s = "" ∧ t = "".
Proof. destruct s; [done|]. by rewrite str_app_cons. Qed.

Lemma str_app_snoc_ne s c : s +:+ String c "" ≠ "".
Proof. intros [_ ?]%str_app_eq_nil. done. Qed.

Lemma str_forallb_app p s t :
  str_forallb p (s +:+ t) = str_forallb p s && str_forallb p t.
Proof.
  induction s as [|c s IH]; [done|].
  rewrite str_app_cons. simpl. by rewrite IH, andb_assoc.
Qed.

Lemma getitem_0 {A} (x : A) l : getitem (x :: l) 0 = Ok x.
Proof.
  unfold getitem. cbn [length]. rewrite Nat2Z.inj_succ.
  replace (0 <? 0) with false by done. cbn [orb].
  destruct (Z.leb_spec0 (Z.succ (Z.of_nat (length l))) 0); [lia|done].
Qed.

Lemma getitem_last {A} (l : list A) x : getitem (l ++ [x]) (-1) = Ok x.
Proof.
  unfold getitem. rewrite length_app. cbn [length].
  replace (-1 <? 0) with true by done.
  replace (-1 + Z.of_nat (length l + 1)) with (Z.of_nat (length l)) by lia.
  destruct (Z.ltb_spec0 (Z.of_nat (length l)) 0); [lia|].
  destruct (Z.leb_spec0 (Z.of_nat (length l + 1)) (Z.of_nat (length l)));
    [lia|].
  cbn [orb]. rewrite Nat2Z.id.
  by rewrite lookup_app_r, Nat.sub_diag by lia.
Qed.

Lemma slice_to_last {A} (l : list A) x : slice_to (l ++ [x]) (-1) = l.
Proof.
  unfold slice_to. rewrite length_app. cbn [length].
  replace (-1 <? 0) with true by done.
  replace (Z.max 0 (-1 + Z.of_nat (length l + 1)))
    with (Z.of_nat (length l)) by lia.
  rewrite Nat2Z.id. by rewrite take_app_length.
Qed.

Lemma join_cons sep x y l :
  join sep (x :: y :: l) = x +:+ sep +:+ join sep (y :: l).
Proof. reflexivity. Qed.

Lemma join_snoc sep l x y :
  join sep ((x :: l) ++ [y]) = join sep (x :: l) +:+ sep +:+ y.
Proof.
  revert x. induction l as [|z l IH]; intros x; [done|].
  change ((x :: z :: l) ++ [y])%list with (x :: z :: (l ++ [y]))%list.
  rewrite !join_cons. change (z :: (l ++ [y]))%list with ((z :: l) ++ [y])%list.
  by rewrite IH, !str_app_assoc.
Qed.

(** *** [split] *)

Lemma split_from_nonempty s tok : Forall (λ t, t ≠ "") (split_from tok s).
Proof.
  revert tok. induction s as [|c s IH]; intros tok; simpl.
  - case_decide; by repeat constructor.
  - destruct (isspace c); [|apply IH].
    apply Forall_app. split; [|apply IH].
    case_decide; by repeat constructor.
Qed.

Lemma split_from_nospace s tok :
  str_forallb nonspace tok = true →
  Forall (λ t, str_forallb nonspace t = true) (split_from tok s).
Proof.
  revert tok. induction s as [|c s IH]; intros tok Htok; simpl.
  - case_decide; by repeat constructor.
  - destruct (isspace c) eqn:Hc.
    + apply Forall_app. split; [|by apply IH].
      case_decide; by repeat constructor.
    + apply IH. rewrite str_forallb_app, Htok. simpl.
      unfold nonspace. by rewrite Hc.
Qed.

Lemma split_tokens s : Forall token (split s).
Proof.
  apply Forall_and. split.
  - apply split_from_nonempty.
  - by apply split_from_nospace.
Qed.

Lemma split_from_concat s tok :
  String.concat "" (split_from tok s) = tok +:+ str_filter nonspace s.
Proof.
  revert tok. induction s as [|c s IH]; intros tok; simpl.
  - case_decide as E; [by rewrite E|]. by rewrite str_app_nil_r.
  - unfold nonspace at 1. destruct (isspace c) eqn:Hc; simpl.
    + case_decide as E.
      * rewrite E. apply IH.
      * simpl. specialize (IH ""). rewrite str_app_nil_l in IH.
        destruct (split_from "" s) as [|t l] eqn:El.
        -- by rewrite <- IH, str_app_nil_r.
        -- by rewrite <- IH.
    + rewrite IH. by rewrite str_app_assoc.
Qed.

Lemma split_from_all_space s :
  str_forallb isspace s = true → split_from "" s = [].
Proof.
  induction s as [|c s IH]; [done|]. simpl.
  intros [Hc Hs]%andb_prop. rewrite Hc. simpl. by apply IH.
Qed.

Lemma split_from_word t tok s :
  str_forallb nonspace t = true → tok +:+ t ≠ "" →
  split_from tok (t +:+ s) =
    match s with
    | "" => [tok +:+ t]
    | String c s' =>
        if isspace c then (tok +:+ t) :: split_from "" s'
        else split_from (tok +:+ t) s
    end.
Proof.
  revert tok. induction t as [|c t IH]; intros tok Ht Hne.
  - rewrite str_app_nil_l, str_app_nil_r in *. destruct s as [|c s]; simpl.
    + by case_decide.
    + destruct (isspace c); [|done]. by case_decide.
  - simpl in Ht. apply andb_prop in Ht as [Hc Ht].
    unfold nonspace in Hc. apply negb_true_iff in Hc.
    rewrite str_app_cons. simpl. rewrite Hc.
    rewrite IH; [|done|].
    + by rewrite !str_app_assoc.
    + rewrite str_app_assoc. by rewrite str_app_cons, str_app_nil_l.
Qed.

(** The equations that determine [split]. *)
Lemma split_nil : split "" = [].
Proof. reflexivity. Qed.

Lemma split_space c s : isspace c = true → split (String c s) = split s.
Proof. intros Hc. unfold split. simpl. by rewrite Hc. Qed.

Lemma split_word_end t : token t → split t = [t].
Proof.
  intros [Hne Ht]. unfold split.
  rewrite <- (str_app_nil_r t) at 1. by rewrite split_from_word.
Qed.

Lemma split_word_space t c s :
  token t → isspace c = true → split (t +:+ String c s) = t :: split s.
Proof.
  intros [Hne Ht] Hc. unfold split.
  rewrite split_from_word by done. by rewrite Hc.
Qed.

(** ** The author loop *)

Lemma comprehension_initials l :
  Forall (λ t, t ≠ "") l →
  comprehension (λ name, c ← str_getitem0 name; Ok (c +:+ ".")) l
  = Ok (map (λ name, initial name +:+ ".") l).
Proof.
  induction 1 as [|t l Ht _ IH]; [done|].
  cbn [comprehension map]. destruct t as [|c t]; [done|].
  cbn. by rewrite IH.
Qed.

Lemma initials_of_total g : initials_of g = Ok (initials g).
Proof.
  unfold initials_of, initials.
  by rewrite comprehension_initials by apply split_from_nonempty.
Qed.

Lemma author_loop_entries l acc : author_loop l acc = Ok (acc ++ entries l)%list.
Proof.
  revert acc. induction l as [|a l IH]; intros acc.
  - unfold entries. simpl. by rewrite app_nil_r.
  - cbn [author_loop]. unfold entries. cbn [List.filter].
    fold (usable a). destruct (usable a).
    + rewrite initials_of_total. cbn. rewrite IH.
      by rewrite <- List.app_assoc.
    + apply IH.
Qed.

Lemma collect_authors_total it :
  collect_authors it = Ok (entries (default [] (item_author it))).
Proof.
  unfold collect_authors. destruct (item_author it) as [l|]; [|done].
  apply author_loop_entries.
Qed.

Lemma truthy_false s : truthy s = false ↔ s = "".
Proof.
  unfold truthy. rewrite bool_decide_eq_false.
  split; [apply dec_stable|naive_solver].
Qed.

Lemma truthy_true s : truthy s = true ↔ s ≠ "".
Proof. unfold truthy. by rewrite bool_decide_eq_true. Qed.

Lemma missing_or_empty_default o : missing_or_empty o ↔ default "" o = "".
Proof. unfold missing_or_empty. destruct o; simpl; intuition congruence. Qed.

Lemma usable_false a : usable a = false ↔ unusable a.
Proof.
  unfold usable, unusable.
  by rewrite andb_false_iff, !truthy_false, !missing_or_empty_default.
Qed.

Lemma entries_app l1 l2 :
  entries (l1 ++ l2) = (entries l1 ++ entries l2)%list.
Proof. unfold entries. by rewrite List.filter_app, map_app. Qed.

Lemma entries_unusable l : Forall unusable l → entries l = [].
Proof.
  induction 1 as [|a l Ha _ IH]; [done|].
  unfold entries in *. cbn [List.filter].
  apply usable_false in Ha. by rewrite Ha.
Qed.

(** ** The author string of the CSV script *)

Lemma excel_author_string_many a b l last :
  Excel.author_string (a :: b :: l ++ [last])
  = Ok (join ", " (a :: b :: l) +:+ ", & " +:+ last).
Proof.
  unfold Excel.author_string.
  assert (length (a :: b :: l ++ [last]) = S (S (S (length l)))) as Hlen.
  { cbn [length]. rewrite length_app. cbn [length]. lia. }
  rewrite Hlen. repeat (case_decide; try lia).
  change (a :: b :: l ++ [last])%list with ((a :: b :: l) ++ [last])%list.
  by rewrite getitem_last, slice_to_last.
Qed.

(** C1. The author string of the CSV script follows the number of rendered
    authors: none gives "N/A", one gives the name itself, two are joined
    by " & ", and three or more are joined by ", " up to the last one,
    which follows ", & ".  The three authors Smith, Doe and Lee of the
    specification give "Smith, J., Doe, J., & Lee, K.". *)
Theorem excel_author_string_by_length :
  Excel.author_string [] = Ok "N/A"
  ∧ (∀ a, Excel.author_string [a] = Ok a)
  ∧ (∀ a b, Excel.author_string [a; b] = Ok (a +:+ " & " +:+ b))
  ∧ (∀ a b l last,
       Excel.author_string (a :: b :: l ++ [last])
       = Ok (join ", " (a :: b :: l) +:+ ", & " +:+ last))
  ∧ Excel.fetch_metadata "Title" (Ok (one_hit smith_doe_lee)) !! "Author"
    = Some (VStr "Smith, J., Doe, J., & Lee, K.").
Proof.
  split_and!.
  - reflexivity.
  - intros a. unfold Excel.author_string. cbn [length].
    case_decide; [|done]. apply getitem_0.
  - reflexivity.
  - apply excel_author_string_many.
  - by vm_compute.
Qed.

(** ** One author *)

Lemma usable_mk_author g f : g ≠ "" → f ≠ "" → usable (mk_author g f) = true.
Proof.
  intros Hg%truthy_true Hf%truthy_true.
  change (truthy g && truthy f = true). by rewrite Hg, Hf.
Qed.

Lemma author_loop_usable g f :
  g ≠ "" → f ≠ "" →
  author_loop [mk_author g f] [] = Ok [f +:+ ", " +:+ initials g].
Proof.
  intros Hg Hf. rewrite author_loop_entries. unfold entries.
  cbn [List.filter]. by rewrite usable_mk_author.
Qed.

(** C5. An author whose given and family names are both non-empty is
    rendered as the family name, ", " and the initials; the initials are
    the first character of each token of the given name followed by ".",
    joined by one space.  The tokens are the runs of the given name that
    are free of white space: none is empty, and together they hold the
    characters of the given name that are not white space, in order.
    "John Michael" has the initials "J. M.". *)
Theorem usable_author_entry (g f : string) :
  g ≠ "" → f ≠ "" →
  author_loop [mk_author g f] []
  = Ok [f +:+ ", " +:+ join " " (map (λ t, initial t +:+ ".") (split g))]
  ∧ Forall token (split g)
  ∧ String.concat "" (split g) = str_filter nonspace g
  ∧ initials_of "John Michael" = Ok "J. M.".
Proof.
  intros Hg Hf. split_and!.
  - by apply author_loop_usable.
  - apply split_tokens.
  - apply (split_from_concat g "").
  - reflexivity.
Qed.

Lemma usable_author_entry_witness :
  author_loop [mk_author "John Michael" "Smith"] [] = Ok ["Smith, J. M."].
Proof.
  exact (proj1 (usable_author_entry "John Michael" "Smith"
                  ltac:(discriminate) ltac:(discriminate))).
Defined.

(** C10. An author whose family name is non-empty and whose given name is
    non-empty but made of white space only passes the guard of the loop;
    the given name has no token, the initials are empty, and the entry is
    the family name followed by ", ".  Alone, it is the Author string of
    both scripts. *)
Theorem whitespace_given_entry (g f : string) :
  g ≠ "" → str_forallb isspace g = true → f ≠ "" →
  usable (mk_author g f) = true
  ∧ split g = []
  ∧ author_loop [mk_author g f] [] = Ok [f +:+ ", "]
  ∧ author_field Excel.author_string (Some [mk_author g f]) = Ok (f +:+ ", ")
  ∧ author_field Word.author_string (Some [mk_author g f]) = Ok (f +:+ ", ").
Proof.
  intros Hg Hsp Hf.
  assert (split g = []) as Hsplit by by apply split_from_all_space.
  assert (author_loop [mk_author g f] [] = Ok [f +:+ ", "]) as Hloop.
  { rewrite author_loop_usable by done. unfold initials. by rewrite Hsplit. }
  split_and!; [|done|done|..].
  - by apply usable_mk_author.
  - unfold author_field. rewrite Hloop. cbn.
    unfold Excel.author_string. cbn [length].
    case_decide; [|done]. apply getitem_0.
  - unfold author_field. rewrite Hloop. cbn.
    unfold Word.author_string. by case_decide.
Qed.

Lemma whitespace_given_entry_witness :
  author_loop [mk_author "  " "Lee"] [] = Ok ["Lee, "].
Proof.
  exact (proj1 (proj2 (proj2
    (whitespace_given_entry "  " "Lee"
       ltac:(discriminate) eq_refl ltac:(discriminate))))).
Defined.

(** ** Authors that are left out *)

Lemma author_loop_drop l1 a l2 acc :
  unusable a →
  author_loop (l1 ++ a :: l2) acc = author_loop (l1 ++ l2) acc.
Proof.
  intros Ha%usable_false. rewrite !author_loop_entries, !entries_app.
  unfold entries at 2. cbn [List.filter]. by rewrite Ha.
Qed.

(** C6. An author whose given or family name is missing or empty is left
    out without an error: the loop over a list that holds such an author
    returns, and returns the entries of the list without that author.
    When no author of the list is usable, the Author string of both
    scripts is the placeholder "N/A". *)
Theorem unusable_author_dropped (l1 l2 : list author) (a : author) :
  unusable a →
  author_loop (l1 ++ a :: l2) [] = Ok (entries (l1 ++ l2))
  ∧ author_loop (l1 ++ a :: l2) [] = author_loop (l1 ++ l2) []
  ∧ (Forall unusable (l1 ++ l2) →
     author_field Excel.author_string (Some (l1 ++ a :: l2)%list) = Ok "N/A"
     ∧ author_field Word.author_string (Some (l1 ++ a :: l2)%list) = Ok "N/A").
Proof.
  intros Ha.
  assert (author_loop (l1 ++ a :: l2) [] = Ok (entries (l1 ++ l2))) as Hloop.
  { rewrite author_loop_drop by done. apply author_loop_entries. }
  split_and!; [done|by apply author_loop_drop|..];
    intros Hall%entries_unusable; unfold author_field;
    by rewrite Hloop, Hall.
Qed.

Lemma unusable_author_dropped_witness :
  author_loop
    ([mk_author "John" "Smith"] ++ Author None (Some "Doe")
       :: [mk_author "Kim" "Lee"]) []
  = Ok ["Smith, J."; "Lee, K."].
Proof.
  exact (proj1 (unusable_author_dropped
                  [mk_author "John" "Smith"] [mk_author "Kim" "Lee"]
                  (Author None (Some "Doe")) (or_introl (or_introl eq_refl)))).
Defined.

(** ** The composer *)

Lemma dict_getitem_Some m k v : m !! k = Some v → dict_getitem m k = Ok v.
Proof. unfold dict_getitem. by intros ->. Qed.

Lemma issue_segment_lookup m v :
  m !! "Issue" = Some v → issue_segment m = Ok (issue_text v).
Proof.
  intros H. unfold issue_segment, issue_text.
  rewrite (dict_getitem_Some _ _ _ H). cbn.
  destruct (decide (v = VStr "N/A")); by repeat case_decide.
Qed.

Lemma doi_segment_lookup m v :
  m !! "DOI" = Some v → doi_segment m = Ok (doi_text v).
Proof.
  intros H. unfold doi_segment, doi_text.
  rewrite (dict_getitem_Some _ _ _ H). cbn.
  destruct (decide (v = VStr "N/A")); by repeat case_decide.
Qed.

Lemma excel_format_apa_fields m author year title journal volume issue pages
    doi :
  m !! "Error" = None →
  m !! "Author" = Some author → m !! "Year" = Some year →
  m !! "Title" = Some title → m !! "Journal" = Some journal →
  m !! "Volume" = Some volume → m !! "Issue" = Some issue →
  m !! "Pages" = Some pages → m !! "DOI" = Some doi →
  Excel.format_apa m
  = Ok (VStr (format_value author +:+ " (" +:+ format_value year +:+ "). "
              +:+ format_value title +:+ ". *" +:+ format_value journal
              +:+ "*, " +:+ format_value volume +:+ issue_text issue +:+ ", "
              +:+ format_value pages +:+ ". " +:+ doi_text doi)).
Proof.
  intros He Ha Hy Ht Hj Hv Hi Hp Hd. unfold Excel.format_apa.
  rewrite decide_False by (rewrite He; apply is_Some_None).
  rewrite (dict_getitem_Some _ _ _ Ha), (dict_getitem_Some _ _ _ Hy),
    (dict_getitem_Some _ _ _ Ht), (dict_getitem_Some _ _ _ Hj),
    (dict_getitem_Some _ _ _ Hv), (dict_getitem_Some _ _ _ Hp),
    (issue_segment_lookup _ _ Hi), (doi_segment_lookup _ _ Hd).
  reflexivity.
Qed.

Lemma word_format_apa_fields m author year title journal volume issue pages
    doi :
  m !! "Error" = None →
  m !! "Author" = Some author → m !! "Year" = Some year →
  m !! "Title" = Some title → m !! "Journal" = Some journal →
  m !! "Volume" = Some volume → m !! "Issue" = Some issue →
  m !! "Pages" = Some pages → m !! "DOI" = Some doi →
  Word.format_apa m
  = Ok (RefDict
          (<["Author" := author]>
          (<["Year" := year]>
          (<["Title" := title]>
          (<["Journal" := journal]>
          (<["Volume" := volume]>
          (<["Issue" := VStr (issue_text issue)]>
          (<["Pages" := pages]>
          (<["DOI" := VStr (doi_text doi)]> ∅))))))))).
Proof.
  intros He Ha Hy Ht Hj Hv Hi Hp Hd. unfold Word.format_apa.
  rewrite decide_False by (rewrite He; apply is_Some_None).
  rewrite (dict_getitem_Some _ _ _ Ha), (dict_getitem_Some _ _ _ Hy),
    (dict_getitem_Some _ _ _ Ht), (dict_getitem_Some _ _ _ Hj),
    (dict_getitem_Some _ _ _ Hv), (dict_getitem_Some _ _ _ Hp),
    (issue_segment_lookup _ _ Hi), (doi_segment_lookup _ _ Hd).
  reflexivity.
Qed.

Lemma well_shaped_fields m :
  well_shaped m →
  ∃ author year title journal volume issue pages doi,
    m !! "Author" = Some author ∧ m !! "Year" = Some year
    ∧ m !! "Title" = Some title ∧ m !! "Journal" = Some journal
    ∧ m !! "Volume" = Some volume ∧ m !! "Issue" = Some issue
    ∧ m !! "Pages" = Some pages ∧ m !! "DOI" = Some doi.
Proof.
  intros [_ H]. unfold fields in H. rewrite !Forall_cons in H.
  destruct H as ([a Ha] & [y Hy] & [t Ht] & [j Hj] & [v Hv] & [i Hi]
                 & [p Hp] & [d Hd] & _).
  by exists a, y, t, j, v, i, p, d.
Qed.

(** C2. When the dictionary has no "Error" key and holds the eight fields,
    the CSV script composes
    [{Author} ({Year}). {Title}. *{Journal}*, {Volume}{Issue}, {Pages}. {DOI}],
    where the issue is put between parentheses unless it is "N/A", in
    which case it is left out, and the identifier follows
    "https://doi.org/" unless it is "N/A", in which case "N/A" is printed.
    The record of "Study X" composes to
    "Lee, A. (2020). Study X. *J. of Things*, 5(2), 10-20.
     https://doi.org/10.1/abc". *)
Theorem excel_format_apa_template (m : gmap string value)
    (author year title journal volume issue pages doi : value) :
  m !! "Error" = None →
  m !! "Author" = Some author → m !! "Year" = Some year →
  m !! "Title" = Some title → m !! "Journal" = Some journal →
  m !! "Volume" = Some volume → m !! "Issue" = Some issue →
  m !! "Pages" = Some pages → m !! "DOI" = Some doi →
  Excel.format_apa m
  = Ok (VStr (format_value author +:+ " (" +:+ format_value year +:+ "). "
              +:+ format_value title +:+ ". *" +:+ format_value journal
              +:+ "*, " +:+ format_value volume
              +:+ (if decide (issue = VStr "N/A") then ""
                   else "(" +:+ format_value issue +:+ ")")
              +:+ ", " +:+ format_value pages +:+ ". "
              +:+ (if decide (doi = VStr "N/A") then "N/A"
                   else "https://doi.org/" +:+ format_value doi)))
  ∧ Excel.format_apa (Excel.fetch_metadata "Study X" (Ok (one_hit study_x)))
    = Ok (VStr ("Lee, A. (2020). Study X. *J. of Things*, 5(2), 10-20. "
                +:+ "https://doi.org/10.1/abc")).
Proof.
  intros. split.
  - by apply excel_format_apa_fields.
  - by vm_compute.
Qed.

Lemma excel_format_apa_template_witness :
  Excel.format_apa (Excel.fetch_metadata "Study X" (Ok (one_hit study_x)))
  = Ok (VStr "Lee, A. (2020). Study X. *J. of Things*, 5(2), 10-20. https://doi.org/10.1/abc").
Proof.
  exact (proj1 (excel_format_apa_template
    (Excel.fetch_metadata "Study X" (Ok (one_hit study_x)))
    (VStr "Lee, A.") (VInt 2020) (VStr "Study X") (VStr "J. of Things")
    (VStr "5") (VStr "2") (VStr "10-20") (VStr "10.1/abc")
    eq_refl eq_refl eq_refl eq_refl eq_refl eq_refl eq_refl eq_refl eq_refl)).
Defined.

(** C4. When the dictionary carries an "Error" key, both scripts return
    the value found under it and nothing else, whatever other keys the
    dictionary holds.  The dictionary that [fetch_metadata] builds when the
    answer has no item composes to "No data found for this title.", and
    the one it builds from an exception composes to the text of that
    exception. *)
Theorem error_marker_passthrough (m : gmap string value) (msg : value) :
  m !! "Error" = Some msg →
  Excel.format_apa m = Ok msg
  ∧ Word.format_apa m = Ok (RefValue msg)
  ∧ (∀ title,
       Excel.format_apa
         (Excel.fetch_metadata title
            (Ok (ResponseData (Some (Message (Some []))))))
       = Ok (VStr "No data found for this title."))
  ∧ (∀ title e,
       Excel.format_apa (Excel.fetch_metadata title (Raise e))
       = Ok (VStr (str_exn e))
       ∧ Word.format_apa (Word.fetch_metadata title (Raise e))
         = Ok (RefValue (VStr (str_exn e)))).
Proof.
  intros H. split_and!.
  - unfold Excel.format_apa. rewrite decide_True by by rewrite H.
    by apply dict_getitem_Some.
  - unfold Word.format_apa. rewrite decide_True by by rewrite H.
    by rewrite (dict_getitem_Some _ _ _ H).
  - intros title. by vm_compute.
  - intros title e. split.
    + unfold Excel.fetch_metadata, Excel.format_apa. cbn [mbind result_bind catch_all].
      rewrite decide_True by by rewrite lookup_singleton_eq.
      apply dict_getitem_Some, lookup_singleton_eq.
    + unfold Word.fetch_metadata, Word.format_apa. cbn [mbind result_bind catch_all].
      rewrite decide_True by by rewrite lookup_singleton_eq.
      by rewrite (dict_getitem_Some _ _ _ (lookup_singleton_eq _ _)).
Qed.

Lemma error_marker_passthrough_witness :
  Excel.format_apa no_data = Ok (VStr "No data found for this title.")
  ∧ Word.format_apa no_data
    = Ok (RefValue (VStr "No data found for this title.")).
Proof.
  pose proof (error_marker_passthrough no_data
                (VStr "No data found for this title.") eq_refl) as H.
  exact (conj (proj1 H) (proj1 (proj2 H))).
Defined.

(** ** What [fetch_metadata] returns *)

Lemma excel_metadata_of_inv title it m :
  Excel.metadata_of title it = Ok m →
  ∃ s y j, author_field Excel.author_string (item_author it) = Ok s
           ∧ m = metadata_dict s y title j it.
Proof.
  intros H. unfold Excel.metadata_of in H. bind_cases H.
  injection H as <-. eexists _, _, _. split; [|reflexivity].
  unfold author_field. fold (collect_authors it).
  match goal with E : collect_authors it = _ |- _ => rewrite E end.
  done.
Qed.

Lemma word_metadata_of_inv title it m :
  Word.metadata_of title it = Ok m →
  ∃ s y j, author_field Word.author_string (item_author it) = Ok s
           ∧ m = metadata_dict s y title j it.
Proof.
  intros H. unfold Word.metadata_of in H. bind_cases H.
  injection H as <-. eexists _, _, _. split; [|reflexivity].
  unfold author_field. fold (collect_authors it).
  match goal with E : collect_authors it = _ |- _ => rewrite E end.
  done.
Qed.

Lemma metadata_dict_well_shaped s y t j it :
  well_shaped (metadata_dict s y t j it).
Proof.
  split; [done|]. unfold fields, metadata_dict.
  repeat constructor; by simplify_map_eq.
Qed.

Lemma metadata_dict_author s y t j it :
  metadata_dict s y t j it !! "Author" = Some (VStr s).
Proof. unfold metadata_dict. by simplify_map_eq. Qed.

Lemma first_item_has_items d it : first_item d = Ok it → has_items d = true.
Proof.
  unfold first_item, has_items, json_getitem. intros H.
  destruct (data_message d) as [msg|]; [|done]. cbn in H.
  destruct (items msg) as [[|x l]|]; [done| |done].
  apply bool_decide_eq_true. cbn [length]. lia.
Qed.

Lemma excel_fetch_author title d it v :
  first_item d = Ok it →
  Excel.fetch_metadata title (Ok d) !! "Author" = Some v →
  ∃ s, author_field Excel.author_string (item_author it) = Ok s ∧ v = VStr s.
Proof.
  intros Hit H. unfold Excel.fetch_metadata in H.
  cbn [mbind result_bind] in H.
  rewrite (first_item_has_items _ _ Hit), Hit in H.
  cbn [mbind result_bind] in H.
  destruct (Excel.metadata_of title it) as [m|e] eqn:E; cbn [catch_all] in H.
  - apply excel_metadata_of_inv in E as (s & y & j & Hs & ->).
    rewrite metadata_dict_author in H. exists s. by injection H as <-.
  - by rewrite lookup_singleton_ne in H.
Qed.

Lemma word_fetch_author title d it v :
  first_item d = Ok it →
  Word.fetch_metadata title (Ok d) !! "Author" = Some v →
  ∃ s, author_field Word.author_string (item_author it) = Ok s ∧ v = VStr s.
Proof.
  intros Hit H. unfold Word.fetch_metadata in H.
  cbn [mbind result_bind] in H.
  rewrite (first_item_has_items _ _ Hit), Hit in H.
  cbn [mbind result_bind] in H.
  destruct (Word.metadata_of title it) as [m|e] eqn:E; cbn [catch_all] in H.
  - apply word_metadata_of_inv in E as (s & y & j & Hs & ->).
    rewrite metadata_dict_author in H. exists s. by injection H as <-.
  - by rewrite lookup_singleton_ne in H.
Qed.

(** C9. The Author entry depends on the authors of the answer only: when
    two answers list the same authors, whatever their titles, dates,
    journals, volumes, issues, pages and identifiers, the Author entries
    that [fetch_metadata] produces for them are equal, and equal to the
    value of [author_field] at that list of authors.  This holds for each
    of the two scripts. *)
Theorem author_entry_of_authors_only (t1 t2 : string) (d1 d2 : response_data)
    (it1 it2 : item) (v1 v2 w1 w2 : value) :
  first_item d1 = Ok it1 → first_item d2 = Ok it2 →
  item_author it1 = item_author it2 →
  Excel.fetch_metadata t1 (Ok d1) !! "Author" = Some v1 →
  Excel.fetch_metadata t2 (Ok d2) !! "Author" = Some v2 →
  Word.fetch_metadata t1 (Ok d1) !! "Author" = Some w1 →
  Word.fetch_metadata t2 (Ok d2) !! "Author" = Some w2 →
  v1 = v2 ∧ w1 = w2
  ∧ Ok v1 = (s ← author_field Excel.author_string (item_author it1);
             Ok (VStr s))
  ∧ Ok w1 = (s ← author_field Word.author_string (item_author it1);
             Ok (VStr s)).
Proof.
  intros H1 H2 Hauth Hv1 Hv2 Hw1 Hw2.
  apply (excel_fetch_author _ _ _ _ H1) in Hv1 as (s1 & Hs1 & ->).
  apply (excel_fetch_author _ _ _ _ H2) in Hv2 as (s2 & Hs2 & ->).
  apply (word_fetch_author _ _ _ _ H1) in Hw1 as (u1 & Hu1 & ->).
  apply (word_fetch_author _ _ _ _ H2) in Hw2 as (u2 & Hu2 & ->).
  rewrite <- Hauth in Hs2, Hu2. rewrite Hs1 in Hs2. rewrite Hu1 in Hu2.
  injection Hs2 as ->. injection Hu2 as ->.
  by rewrite Hs1, Hu1.
Qed.

Lemma author_entry_of_authors_only_witness :
  Excel.fetch_metadata "Study X" (Ok (one_hit study_x)) !! "Author"
  = Excel.fetch_metadata "Another title"
      (Ok (one_hit (authors_only [mk_author "Ann" "Lee"]))) !! "Author".
Proof.
  pose proof (author_entry_of_authors_only "Study X" "Another title"
    (one_hit study_x) (one_hit (authors_only [mk_author "Ann" "Lee"]))
    study_x (authors_only [mk_author "Ann" "Lee"])
    (VStr "Lee, A.") (VStr "Lee, A.") (VStr "Lee, A.") (VStr "Lee, A.")
    eq_refl eq_refl eq_refl eq_refl eq_refl eq_refl eq_refl) as H.
  exact (f_equal Some (proj1 H)).
Defined.

Lemma fetch_metadata_shape title r :
  (is_Some (Excel.fetch_metadata title r !! "Error")
   ∨ well_shaped (Excel.fetch_metadata title r))
  ∧ (is_Some (Word.fetch_metadata title r !! "Error")
     ∨ well_shaped (Word.fetch_metadata title r)).
Proof.
  unfold Excel.fetch_metadata, Word.fetch_metadata.
  destruct r as [d|e]; cbn [mbind result_bind catch_all];
    [|split; left; by rewrite lookup_singleton_eq].
  destruct (has_items d); [|split; by left].
  destruct (first_item d) as [it|e]; cbn [mbind result_bind catch_all];
    [|split; left; by rewrite lookup_singleton_eq].
  split.
  - destruct (Excel.metadata_of title it) as [m|e] eqn:E; cbn [catch_all].
    + apply excel_metadata_of_inv in E as (s & y & j & _ & ->).
      right. apply metadata_dict_well_shaped.
    + left. by rewrite lookup_singleton_eq.
  - destruct (Word.metadata_of title it) as [m|e] eqn:E; cbn [catch_all].
    + apply word_metadata_of_inv in E as (s & y & j & _ & ->).
      right. apply metadata_dict_well_shaped.
    + left. by rewrite lookup_singleton_eq.
Qed.

(** ** The composer never raises *)

Lemma format_apa_well_shaped m :
  well_shaped m →
  (∃ s, Excel.format_apa m = Ok (VStr s))
  ∧ (∃ d, Word.format_apa m = Ok (RefDict d)).
Proof.
  intros Hm.
  destruct (well_shaped_fields m Hm)
    as (a & y & t & j & v & i & p & d & Ha & Hy & Ht & Hj & Hv & Hi & Hp & Hd).
  destruct Hm as [He _]. split; eexists.
  - by apply excel_format_apa_fields.
  - by apply word_format_apa_fields.
Qed.

(** C8. On a dictionary without "Error" key that holds the eight fields,
    [format_apa] returns: a string in the CSV script, a dictionary in the
    document script.  No exception is raised, whatever the values of the
    fields, the placeholders "N/A" and "n.d." included. *)
Theorem format_apa_total (m : gmap string value) :
  well_shaped m →
  (∃ s, Excel.format_apa m = Ok (VStr s))
  ∧ (∃ d, Word.format_apa m = Ok (RefDict d)).
Proof. apply format_apa_well_shaped. Qed.

Lemma format_apa_total_witness :
  well_shaped (Excel.fetch_metadata "Untitled" (Ok (one_hit bare_item)))
  ∧ ∃ s, Excel.format_apa
           (Excel.fetch_metadata "Untitled" (Ok (one_hit bare_item)))
         = Ok (VStr s).
Proof.
  assert (well_shaped
            (Excel.fetch_metadata "Untitled" (Ok (one_hit bare_item)))) as H.
  { split; [reflexivity|]. repeat constructor; by eexists. }
  exact (conj H (proj1 (format_apa_total _ H))).
Defined.

(** The reference of an answer without any key. *)
Example format_apa_placeholders :
  Excel.format_apa (Excel.fetch_metadata "Untitled" (Ok (one_hit bare_item)))
  = Ok (VStr "N/A (n.d.). Untitled. *N/A*, N/A, N/A. N/A").
Proof. by vm_compute. Qed.

(** Whatever the exchange with CrossRef gave, composing what
    [fetch_metadata] returned does not raise. *)
Lemma fetch_then_format_total title r :
  (∃ v, Excel.format_apa (Excel.fetch_metadata title r) = Ok v)
  ∧ (∃ ref, Word.format_apa (Word.fetch_metadata title r) = Ok ref).
Proof.
  destruct (fetch_metadata_shape title r) as [[[v Hv]|Hx] [[w Hw]|Hw]].
  - split; eexists.
    + unfold Excel.format_apa. rewrite decide_True by by rewrite Hv.
      by apply dict_getitem_Some.
    + unfold Word.format_apa. rewrite decide_True by by rewrite Hw.
      by rewrite (dict_getitem_Some _ _ _ Hw).
  - split.
    + eexists. unfold Excel.format_apa. rewrite decide_True by by rewrite Hv.
      by apply dict_getitem_Some.
    + destruct (proj2 (format_apa_well_shaped _ Hw)) as [d Hd]. eauto.
  - split.
    + destruct (proj1 (format_apa_well_shaped _ Hx)) as [s Hs]. eauto.
    + eexists. unfold Word.format_apa. rewrite decide_True by by rewrite Hw.
      by rewrite (dict_getitem_Some _ _ _ Hw).
  - split.
    + destruct (proj1 (format_apa_well_shaped _ Hx)) as [s Hs]. eauto.
    + destruct (proj2 (format_apa_well_shaped _ Hw)) as [d Hd]. eauto.
Qed.

(** ** The two scripts side by side *)

Lemma author_string_paths_agree names :
  (length names ≤ 1)%nat →
  Excel.author_string names = Word.author_string names.
Proof.
  destruct names as [|a [|b l]]; cbn [length]; [done| |lia].
  intros _. unfold Excel.author_string, Word.author_string. cbn [length].
  by repeat case_decide.
Qed.

(** C3. The Author strings of the two scripts for the same authors: for
    the two authors John Smith and Jane Doe the CSV script gives
    "Smith, J. & Doe, J." and the document script gives
    "Smith, J., Doe, J.", so the two entries differ. *)
Theorem author_string_paths_differ :
  Excel.fetch_metadata "Title" (Ok (one_hit smith_doe)) !! "Author"
  = Some (VStr "Smith, J. & Doe, J.")
  ∧ Word.fetch_metadata "Title" (Ok (one_hit smith_doe)) !! "Author"
    = Some (VStr "Smith, J., Doe, J.")
  ∧ Excel.fetch_metadata "Title" (Ok (one_hit smith_doe)) !! "Author"
    ≠ Word.fetch_metadata "Title" (Ok (one_hit smith_doe)) !! "Author".
Proof.
  assert (Excel.fetch_metadata "Title" (Ok (one_hit smith_doe)) !! "Author"
          = Some (VStr "Smith, J. & Doe, J.")) as HE by by vm_compute.
  assert (Word.fetch_metadata "Title" (Ok (one_hit smith_doe)) !! "Author"
          = Some (VStr "Smith, J., Doe, J.")) as HW by by vm_compute.
  split_and!; [done|done|]. rewrite HE, HW. discriminate.
Qed.

(** ** Reading the fields back *)

Lemma str_app_inj_last s t c : s +:+ String c "" = t +:+ String c "" → s = t.
Proof.
  revert t. induction s as [|a s IH]; intros [|b t]; rewrite ?str_app_cons,
    ?str_app_nil_l; intros H.
  - done.
  - injection H as _ H. symmetry in H. by apply str_app_snoc_ne in H.
  - injection H as _ H. by apply str_app_snoc_ne in H.
  - injection H as -> H. f_equal. by apply IH.
Qed.

Lemma issue_text_inj i1 i2 :
  issue_text (VStr i1) = issue_text (VStr i2) → i1 = i2.
Proof.
  unfold issue_text. cbn [format_value].
  repeat case_decide; simplify_eq;
    rewrite ?str_app_cons, ?str_app_nil_l; try done.
  intros E. injection E as E. by apply str_app_inj_last in E.
Qed.

Lemma doi_text_inj d1 d2 :
  doi_text (VStr d1) = doi_text (VStr d2) → d1 = d2.
Proof.
  unfold doi_text. cbn [format_value].
  repeat case_decide; simplify_eq;
    rewrite ?str_app_cons, ?str_app_nil_l; try done.
  by intros [= ->].
Qed.

(** C7, the CSV script.  The answers with volume "5(2)" and no issue, and
    with volume "5" and issue "2", give well-shaped dictionaries with the
    same Author and different Volume and Issue, and the same reference. *)
Lemma excel_format_apa_not_lossless :
  well_shaped (Excel.fetch_metadata "Title" (Ok (one_hit volume_5_2)))
  ∧ well_shaped (Excel.fetch_metadata "Title" (Ok (one_hit volume_5_issue_2)))
  ∧ Excel.fetch_metadata "Title" (Ok (one_hit volume_5_2)) !! "Author"
    = Excel.fetch_metadata "Title" (Ok (one_hit volume_5_issue_2)) !! "Author"
  ∧ Excel.fetch_metadata "Title" (Ok (one_hit volume_5_2)) !! "Volume"
    ≠ Excel.fetch_metadata "Title" (Ok (one_hit volume_5_issue_2)) !! "Volume"
  ∧ Excel.fetch_metadata "Title" (Ok (one_hit volume_5_2)) !! "Issue"
    ≠ Excel.fetch_metadata "Title" (Ok (one_hit volume_5_issue_2)) !! "Issue"
  ∧ Excel.format_apa (Excel.fetch_metadata "Title" (Ok (one_hit volume_5_2)))
    = Excel.format_apa
        (Excel.fetch_metadata "Title" (Ok (one_hit volume_5_issue_2))).
Proof.
  split_and!.
  - split; [reflexivity|]. repeat constructor; by eexists.
  - split; [reflexivity|]. repeat constructor; by eexists.
  - by vm_compute.
  - by vm_compute.
  - by vm_compute.
  - by vm_compute.
Qed.

(** C7, the document script.  On well-shaped dictionaries whose issue and
    identifier are strings, the dictionary that [format_apa] returns
    determines every field: two dictionaries with the same reference have
    the same Author, Year, Title, Journal, Volume, Issue, Pages and DOI. *)
Theorem word_format_apa_lossless (m1 m2 : gmap string value) :
  well_shaped m1 → well_shaped m2 →
  string_valued m1 "Issue" → string_valued m1 "DOI" →
  string_valued m2 "Issue" → string_valued m2 "DOI" →
  Word.format_apa m1 = Word.format_apa m2 →
  Forall (λ k, m1 !! k = m2 !! k) fields.
Proof.
  intros W1 W2 [i1 Hi1] [d1 Hd1] [i2 Hi2] [d2 Hd2] Heq.
  destruct (well_shaped_fields m1 W1)
    as (a & y & t & j & v & i & p & d & Ha & Hy & Ht & Hj & Hv & Hi & Hp & Hd).
  destruct (well_shaped_fields m2 W2)
    as (a' & y' & t' & j' & v' & i' & p' & d' & Ha' & Hy' & Ht' & Hj' & Hv'
        & Hi' & Hp' & Hd').
  rewrite (word_format_apa_fields m1 a y t j v (VStr i1) p (VStr d1)) in Heq
    by (done || apply W1).
  rewrite (word_format_apa_fields m2 a' y' t' j' v' (VStr i2) p' (VStr d2))
    in Heq by (done || apply W2).
  assert (∀ r1 r2 : gmap string value,
            Ok (RefDict r1) = Ok (RefDict r2) → r1 = r2) as Hinj
    by (by intros r1 r2 [= ->]).
  apply Hinj in Heq. clear Hinj.
  pose proof (f_equal (λ m : gmap string value, m !! "Author") Heq) as EA.
  pose proof (f_equal (λ m : gmap string value, m !! "Year") Heq) as EY.
  pose proof (f_equal (λ m : gmap string value, m !! "Title") Heq) as ET.
  pose proof (f_equal (λ m : gmap string value, m !! "Journal") Heq) as EJ.
  pose proof (f_equal (λ m : gmap string value, m !! "Volume") Heq) as EV.
  pose proof (f_equal (λ m : gmap string value, m !! "Issue") Heq) as EI.
  pose proof (f_equal (λ m : gmap string value, m !! "Pages") Heq) as EP.
  pose proof (f_equal (λ m : gmap string value, m !! "DOI") Heq) as ED.
  clear Heq. cbv beta in *.
  simplify_map_eq.
  apply issue_text_inj in EI as ->. apply doi_text_inj in ED as ->.
  unfold fields. repeat constructor; congruence.
Qed.

Lemma word_format_apa_lossless_witness :
  Forall (λ k, Word.fetch_metadata "Study X" (Ok (one_hit study_x)) !! k
               = Excel.fetch_metadata "Study X" (Ok (one_hit study_x)) !! k)
         fields.
Proof.
  apply (word_format_apa_lossless
           (Word.fetch_metadata "Study X" (Ok (one_hit study_x)))
           (Excel.fetch_metadata "Study X" (Ok (one_hit study_x)))).
  - split; [reflexivity|]. repeat constructor; by eexists.
  - split; [reflexivity|]. repeat constructor; by eexists.
  - by exists "2".
  - by exists "10.1/abc".
  - by exists "2".
  - by exists "10.1/abc".
  - by vm_compute.
Defined.

(** ** More on [fetch_metadata]: the answer with a hit *)

Lemma snoc_decompose {A} (x : A) l : ∃ l' y, x :: l = (l' ++ [y])%list.
Proof.
  revert x. induction l as [|z l IH]; intros x.
  - by exists [], x.
  - destruct (IH z) as (l' & y & ->). by exists (x :: l'), y.
Qed.

Lemma excel_author_string_total names : ∃ s, Excel.author_string names = Ok s.
Proof.
  destruct names as [|a [|b [|c l]]]; [by eexists..|].
  destruct (snoc_decompose c l) as (l' & y & ->).
  eexists. apply excel_author_string_many.
Qed.

Lemma word_author_string_total names : ∃ s, Word.author_string names = Ok s.
Proof. unfold Word.author_string. case_decide; by eexists. Qed.

Lemma author_field_total combine o :
  (∀ names, ∃ s, combine names = Ok s) → ∃ s, author_field combine o = Ok s.
Proof.
  intros Hc. unfold author_field. destruct o as [l|]; cbn.
  - rewrite author_loop_entries. apply Hc.
  - apply Hc.
Qed.

Lemma excel_metadata_of_eq t it :
  Excel.metadata_of t it
  = (s ← author_field Excel.author_string (item_author it);
     y ← year_of it; j ← journal_of it; Ok (metadata_dict s y t j it)).
Proof.
  unfold Excel.metadata_of, author_field, collect_authors.
  destruct (item_author it) as [l|]; [destruct (author_loop l [])|];
    reflexivity.
Qed.

Lemma word_metadata_of_eq t it :
  Word.metadata_of t it
  = (s ← author_field Word.author_string (item_author it);
     y ← year_of it; j ← journal_of it; Ok (metadata_dict s y t j it)).
Proof.
  unfold Word.metadata_of, author_field, collect_authors.
  destruct (item_author it) as [l|]; [destruct (author_loop l [])|];
    reflexivity.
Qed.

Lemma getitem_raise {A} (l : list A) i e :
  getitem l i = Raise e → e = list_index_out_of_range.
Proof.
  unfold getitem. repeat case_match; congruence.
Qed.

Lemma year_of_raise it e : year_of it = Raise e → e = list_index_out_of_range.
Proof.
  unfold year_of. intros H. bind_cases H; simplify_eq;
    eauto using getitem_raise.
Qed.

Lemma journal_of_raise it e :
  journal_of it = Raise e → e = list_index_out_of_range.
Proof.
  unfold journal_of. intros H. bind_cases H; simplify_eq;
    eauto using getitem_raise.
Qed.

Lemma year_of_cases it :
  match published_print it ≫= date_parts with
  | Some ((Some n :: _) :: _) =>
      year_of it = Ok (if decide (n = 0) then VStr "n.d." else VInt n)
  | Some ((None :: _) :: _) | None => year_of it = Ok (VStr "n.d.")
  | Some ([] :: _) | Some [] => year_of it = Raise list_index_out_of_range
  end.
Proof.
  unfold year_of. destruct (published_print it) as [[[parts|]]|]; cbn;
    [|done..].
  destruct parts as [|[|[n|] first] parts]; [done|..].
  - by rewrite getitem_0.
  - by rewrite getitem_0; cbn; rewrite getitem_0.
  - by rewrite getitem_0; cbn; rewrite getitem_0.
Qed.

Lemma journal_of_cases it :
  match container_title it with
  | Some (s :: _) => journal_of it = Ok (VStr (if decide (s = "") then "N/A" else s))
  | Some [] => journal_of it = Raise list_index_out_of_range
  | None => journal_of it = Ok (VStr "N/A")
  end.
Proof.
  unfold journal_of. destruct (container_title it) as [[|s l]|]; cbn;
    [done| |done].
  rewrite getitem_0. cbn. unfold truthy.
  destruct (decide (s = "")) as [->|Hs]; [done|].
  by rewrite bool_decide_eq_true_2.
Qed.

Lemma has_items_first_item d : has_items d = true → ∃ it, first_item d = Ok it.
Proof.
  unfold has_items, first_item, json_getitem.
  destruct (data_message d) as [msg|]; [|done]. cbn.
  destruct (items msg) as [[|x l]|]; [done| |done].
  intros _. exists x. apply getitem_0.
Qed.

Lemma excel_fetch_hit t d it :
  first_item d = Ok it →
  Excel.fetch_metadata t (Ok d) = catch_all (Excel.metadata_of t it).
Proof.
  intros Hit. unfold Excel.fetch_metadata. cbn [mbind result_bind].
  by rewrite (first_item_has_items _ _ Hit), Hit.
Qed.

Lemma word_fetch_hit t d it :
  first_item d = Ok it →
  Word.fetch_metadata t (Ok d) = catch_all (Word.metadata_of t it).
Proof.
  intros Hit. unfold Word.fetch_metadata. cbn [mbind result_bind].
  by rewrite (first_item_has_items _ _ Hit), Hit.
Qed.

(** The two ways a hit can end, for both scripts at once. *)
Lemma fetch_hit_cases t d it :
  first_item d = Ok it →
  (∃ s s' y j,
      author_field Excel.author_string (item_author it) = Ok s
      ∧ author_field Word.author_string (item_author it) = Ok s'
      ∧ year_of it = Ok y ∧ journal_of it = Ok j
      ∧ Excel.fetch_metadata t (Ok d) = metadata_dict s y t j it
      ∧ Word.fetch_metadata t (Ok d) = metadata_dict s' y t j it)
  ∨ ((year_of it = Raise list_index_out_of_range
      ∨ journal_of it = Raise list_index_out_of_range)
     ∧ Excel.fetch_metadata t (Ok d) = index_error_dict
     ∧ Word.fetch_metadata t (Ok d) = index_error_dict).
Proof.
  intros Hit. rewrite (excel_fetch_hit _ _ _ Hit), (word_fetch_hit _ _ _ Hit).
  rewrite excel_metadata_of_eq, word_metadata_of_eq.
  destruct (author_field_total Excel.author_string (item_author it)
              excel_author_string_total) as [s ->].
  destruct (author_field_total Word.author_string (item_author it)
              word_author_string_total) as [s' ->].
  cbn [mbind result_bind].
  destruct (year_of it) as [y|e] eqn:Ey; cbn [mbind result_bind].
  - destruct (journal_of it) as [j|e] eqn:Ej; cbn [mbind result_bind catch_all].
    + left. by exists s, s', y, j.
    + apply journal_of_raise in Ej as ->. right. eauto.
  - apply year_of_raise in Ey as ->. right. eauto.
Qed.

Lemma year_of_raise_iff it :
  year_of it = Raise list_index_out_of_range ↔ empty_date_parts it.
Proof.
  pose proof (year_of_cases it) as H. unfold empty_date_parts.
  destruct (published_print it ≫= date_parts) as [[|[|[n|] ?] ?]|];
    rewrite H; naive_solver.
Qed.

Lemma journal_of_raise_iff it :
  journal_of it = Raise list_index_out_of_range ↔ container_title it = Some [].
Proof.
  pose proof (journal_of_cases it) as H.
  destruct (container_title it) as [[|? ?]|]; rewrite H; naive_solver.
Qed.

Lemma metadata_dict_dom s y t j it :
  dom (metadata_dict s y t j it) = list_to_set fields.
Proof.
  unfold metadata_dict, fields. rewrite !dom_insert_L, dom_empty_L.
  cbn [list_to_set foldr]. set_solver.
Qed.

Lemma metadata_dict_ne_error s y t j it msg :
  metadata_dict s y t j it ≠ {[ "Error" := msg ]}.
Proof.
  intros H. apply (f_equal (λ m : gmap string value, m !! "Author")) in H.
  by rewrite metadata_dict_author, lookup_singleton_ne in H.
Qed.

Lemma no_hit_has_items d : no_hit d ↔ has_items d = false.
Proof.
  unfold no_hit, has_items. destruct (data_message d) as [msg|]; cbn;
    [|done].
  destruct (items msg) as [[|x l]|]; cbn; [done| |done].
  rewrite bool_decide_eq_false. split; [done|]. intros H. apply H. lia.
Qed.

Lemma fetch_no_hit t d :
  has_items d = false →
  Excel.fetch_metadata t (Ok d) = no_data
  ∧ Word.fetch_metadata t (Ok d) = no_data.
Proof.
  intros H. unfold Excel.fetch_metadata, Word.fetch_metadata.
  cbn [mbind result_bind]. by rewrite H.
Qed.

(** X1. What [fetch_metadata] returns is either a dictionary whose only
    key is "Error", with a string under it, or a dictionary whose keys are
    exactly Author, Year, Title, Journal, Volume, Issue, Pages and DOI;
    this holds for both scripts and for every outcome of the request. *)
Theorem fetch_metadata_keys (t : string) (r : result response_data) :
  ((∃ msg, Excel.fetch_metadata t r = {[ "Error" := VStr msg ]})
   ∨ dom (Excel.fetch_metadata t r) = list_to_set fields)
  ∧ ((∃ msg, Word.fetch_metadata t r = {[ "Error" := VStr msg ]})
     ∨ dom (Word.fetch_metadata t r) = list_to_set fields).
Proof.
  destruct r as [d|e]; [|split; left; by eexists].
  destruct (has_items d) eqn:Hd.
  - destruct (has_items_first_item d Hd) as [it Hit].
    destruct (fetch_hit_cases t d it Hit)
      as [(s & s' & y & j & _ & _ & _ & _ & -> & ->)|(_ & -> & ->)].
    + split; right; apply metadata_dict_dom.
    + split; left; by eexists.
  - destruct (fetch_no_hit t d Hd) as [-> ->]. split; left; by eexists.
Qed.

(** X2. The Year entry of a hit is the first part of the first date of
    "published-print" when that part is a non-zero integer, and "n.d." when
    "published-print" or its "date-parts" is absent or when that part is
    null or 0; the other parts of the date are not read.  No Year entry
    exists when "date-parts" is empty or starts with an empty list.  The
    document script has the same Year entry. *)
Theorem fetch_year_entry (t : string) (d : response_data) (it : item)
    (y : value) :
  first_item d = Ok it →
  Excel.fetch_metadata t (Ok d) !! "Year" = Some y →
  match published_print it ≫= date_parts with
  | Some ((Some n :: _) :: _) =>
      (n ≠ 0 ∧ y = VInt n) ∨ (n = 0 ∧ y = VStr "n.d.")
  | Some ((None :: _) :: _) | None => y = VStr "n.d."
  | Some ([] :: _) | Some [] => False
  end
  ∧ Word.fetch_metadata t (Ok d) !! "Year" = Some y.
Proof.
  intros Hit Hy.
  destruct (fetch_hit_cases t d it Hit)
    as [(s & s' & y0 & j & _ & _ & Hy0 & _ & HE & HW)|(_ & HE & _)].
  - rewrite HE in Hy. rewrite HW. unfold metadata_dict in *.
    simplify_map_eq. split; [|done].
    pose proof (year_of_cases it) as Hc.
    destruct (published_print it ≫= date_parts) as [[|[|[n|] ?] ?]|];
      rewrite Hy0 in Hc; simplify_eq; try done.
    destruct (decide (n = 0)); naive_solver.
  - rewrite HE in Hy. unfold index_error_dict in Hy.
    by rewrite lookup_singleton_ne in Hy.
Qed.

Lemma fetch_year_entry_witness :
  Word.fetch_metadata "Study X" (Ok (one_hit study_x)) !! "Year"
  = Some (VInt 2020).
Proof.
  exact (proj2 (fetch_year_entry "Study X" (one_hit study_x) study_x
                  (VInt 2020) eq_refl eq_refl)).
Defined.

(** X3. A hit gives the dictionary {"Error": "list index out of range"}
    exactly when the "date-parts" of "published-print" is empty or starts
    with an empty list, or "container-title" is an empty list; this holds
    for both scripts, and the reference composed by the CSV script is then
    the text "list index out of range". *)
Theorem fetch_index_error (t : string) (d : response_data) (it : item) :
  first_item d = Ok it →
  (empty_date_parts it ∨ container_title it = Some []
   ↔ Excel.fetch_metadata t (Ok d) = index_error_dict)
  ∧ (empty_date_parts it ∨ container_title it = Some []
     ↔ Word.fetch_metadata t (Ok d) = index_error_dict)
  ∧ (empty_date_parts it ∨ container_title it = Some [] →
     Excel.format_apa (Excel.fetch_metadata t (Ok d))
     = Ok (VStr "list index out of range")).
Proof.
  intros Hit. rewrite <- year_of_raise_iff, <- journal_of_raise_iff.
  destruct (fetch_hit_cases t d it Hit)
    as [(s & s' & y & j & _ & _ & Hy & Hj & -> & ->)|(Hc & -> & ->)].
  - rewrite Hy, Hj. split_and!.
    + split; [by intros [?|?]|]. by intros ?%metadata_dict_ne_error.
    + split; [by intros [?|?]|]. by intros ?%metadata_dict_ne_error.
    + by intros [?|?].
  - split_and!; [done|done|]. intros _. by vm_compute.
Qed.

Lemma fetch_index_error_witness :
  Excel.format_apa
    (Excel.fetch_metadata "Title"
       (Ok (one_hit (Item None None (Some []) None None None None))))
  = Ok (VStr "list index out of range").
Proof.
  exact (proj2 (proj2 (fetch_index_error "Title"
           (one_hit (Item None None (Some []) None None None None))
           (Item None None (Some []) None None None None) eq_refl))
         (or_intror eq_refl)).
Defined.

(** X4. In the dictionary of a hit that is not an error, Title is the
    title that was passed to [fetch_metadata], not one of the answer;
    Journal is the first "container-title", or "N/A" when the key is absent
    or that first title is empty; Volume, Issue, Pages and DOI are the
    values of "volume", "issue", "page" and "DOI" as they are, the empty
    string included, and "N/A" only when the key is absent. *)
Theorem fetch_field_entries (t : string) (d : response_data) (it : item) :
  first_item d = Ok it →
  Excel.fetch_metadata t (Ok d) !! "Error" = None →
  Excel.fetch_metadata t (Ok d) !! "Title" = Some (VStr t)
  ∧ Excel.fetch_metadata t (Ok d) !! "Journal"
    = Some (VStr match container_title it with
                 | Some (s :: _) => if decide (s = "") then "N/A" else s
                 | _ => "N/A"
                 end)
  ∧ Excel.fetch_metadata t (Ok d) !! "Volume"
    = Some (VStr (default "N/A" (volume it)))
  ∧ Excel.fetch_metadata t (Ok d) !! "Issue"
    = Some (VStr (default "N/A" (issue it)))
  ∧ Excel.fetch_metadata t (Ok d) !! "Pages"
    = Some (VStr (default "N/A" (page it)))
  ∧ Excel.fetch_metadata t (Ok d) !! "DOI"
    = Some (VStr (default "N/A" (DOI it))).
Proof.
  intros Hit He.
  destruct (fetch_hit_cases t d it Hit)
    as [(s & s' & y & j & _ & _ & _ & Hj & HE & _)|(_ & HE & _)];
    rewrite HE in *; [|by vm_compute in He].
  assert (j = VStr match container_title it with
                   | Some (s :: _) => if decide (s = "") then "N/A" else s
                   | _ => "N/A"
                   end) as ->.
  { pose proof (journal_of_cases it) as Hc.
    destruct (container_title it) as [[|? ?]|]; congruence. }
  unfold metadata_dict. by simplify_map_eq.
Qed.

Lemma fetch_field_entries_witness :
  Excel.fetch_metadata "My title"
    (Ok (one_hit (Item None None (Some [""]) None (Some "") None None)))
    !! "Issue"
  = Some (VStr "").
Proof.
  exact (proj1 (proj2 (proj2 (proj2
    (fetch_field_entries "My title"
       (one_hit (Item None None (Some [""]) None (Some "") None None))
       (Item None None (Some [""]) None (Some "") None None)
       eq_refl eq_refl))))).
Defined.

(** X5. An answer gives the dictionary {"Error": "No data found for this
    title."} exactly when it has no hit: the key "message" or the key
    "items" is absent, or the list of items is empty.  This holds for both
    scripts and for every title. *)
Theorem fetch_no_data_iff (t : string) (d : response_data) :
  (Excel.fetch_metadata t (Ok d) = no_data ↔ no_hit d)
  ∧ (Word.fetch_metadata t (Ok d) = no_data ↔ no_hit d).
Proof.
  rewrite no_hit_has_items. destruct (has_items d) eqn:Hd.
  - destruct (has_items_first_item d Hd) as [it Hit].
    destruct (fetch_hit_cases t d it Hit)
      as [(s & s' & y & j & _ & _ & _ & _ & -> & ->)|(_ & -> & ->)].
    + split; (split; [|done]); by intros ?%metadata_dict_ne_error.
    + split; (split; [|done]); intros H;
        apply (f_equal (λ m : gmap string value, m !! "Error")) in H;
        by vm_compute in H.
  - by destruct (fetch_no_hit t d Hd) as [-> ->].
Qed.

(** X6. For every title and every outcome of the request, the
    dictionaries that the two scripts build agree on every key but Author:
    they are an error in the same cases, with the same message, and hold
    the same Year, Title, Journal, Volume, Issue, Pages and DOI.  An
    Author entry exists in one exactly when it exists in the other. *)
Theorem fetch_scripts_agree (t : string) (r : result response_data) :
  (∀ k, k ≠ "Author" →
        Excel.fetch_metadata t r !! k = Word.fetch_metadata t r !! k)
  ∧ (is_Some (Excel.fetch_metadata t r !! "Author")
     ↔ is_Some (Word.fetch_metadata t r !! "Author")).
Proof.
  destruct r as [d|e]; [|done].
  destruct (has_items d) eqn:Hd.
  - destruct (has_items_first_item d Hd) as [it Hit].
    destruct (fetch_hit_cases t d it Hit)
      as [(s & s' & y & j & _ & _ & _ & _ & -> & ->)|(_ & -> & ->)];
      [|done].
    split.
    + intros k Hk. unfold metadata_dict.
      by rewrite !(lookup_insert_ne _ "Author") by done.
    + by rewrite !metadata_dict_author.
  - by destruct (fetch_no_hit t d Hd) as [-> ->].
Qed.

Lemma str_length_app s t :
  String.length (s +:+ t) = (String.length s + String.length t)%nat.
Proof.
  induction s as [|c s IH]; [done|]. rewrite str_app_cons. cbn. by rewrite IH.
Qed.

Lemma excel_word_two_differ a b :
  Excel.author_string [a; b] ≠ Word.author_string [a; b].
Proof.
  unfold Excel.author_string, Word.author_string. cbn.
  intros [= H]. apply String.app_inj in H.
  rewrite !str_app_cons in H. discriminate.
Qed.

Lemma excel_word_many_differ a b l last :
  Excel.author_string (a :: b :: l ++ [last])
  ≠ Word.author_string (a :: b :: l ++ [last]).
Proof.
  rewrite excel_author_string_many. unfold Word.author_string.
  rewrite decide_True by done.
  change (a :: b :: l ++ [last])%list with ((a :: b :: l) ++ [last])%list.
  rewrite join_snoc. intros [= H]. apply String.app_inj in H.
  rewrite !str_app_cons, !str_app_nil_l in H. injection H as H.
  apply (f_equal String.length) in H. cbn in H. lia.
Qed.

(** X7. For the same rendered authors, the Author strings of the two
    scripts are equal exactly when there is at most one author; with two or
    more the CSV script puts "&" before the last one and the document
    script does not. *)
Theorem author_strings_agree_iff (names : list string) :
  Excel.author_string names = Word.author_string names
  ↔ (length names ≤ 1)%nat.
Proof.
  split; [|apply author_string_paths_agree].
  destruct names as [|a [|b [|c l]]]; cbn [length]; [lia|lia|..].
  - by intros ?%excel_word_two_differ.
  - destruct (snoc_decompose c l) as (l' & y & ->).
    by intros ?%excel_word_many_differ.
Qed.

(** ** More on [format_apa]: missing keys *)

Lemma dict_getitem_None m k : m !! k = None → dict_getitem m k = Raise (KeyError k).
Proof. unfold dict_getitem. by intros ->. Qed.

Lemma issue_segment_None m :
  m !! "Issue" = None → issue_segment m = Raise (KeyError "Issue").
Proof. intros H. unfold issue_segment. by rewrite (dict_getitem_None _ _ H). Qed.

Lemma doi_segment_None m :
  m !! "DOI" = None → doi_segment m = Raise (KeyError "DOI").
Proof. intros H. unfold doi_segment. by rewrite (dict_getitem_None _ _ H). Qed.

Lemma format_apa_first_missing m k :
  m !! "Error" = None → first_missing m = Some k →
  Excel.format_apa m = Raise (KeyError k)
  ∧ Word.format_apa m = Raise (KeyError k).
Proof.
  intros He Hk. unfold Excel.format_apa, Word.format_apa.
  rewrite !decide_False by (rewrite He; apply is_Some_None).
  unfold first_missing, fields in Hk. cbn [List.find] in Hk.
  destruct (m !! "Author") as [a|] eqn:Ha; cbn in Hk;
    [rewrite (dict_getitem_Some _ _ _ Ha)
    |rewrite (dict_getitem_None _ _ Ha); by simplify_eq].
  destruct (m !! "Year") as [y|] eqn:Hy; cbn in Hk;
    [rewrite (dict_getitem_Some _ _ _ Hy)
    |rewrite (dict_getitem_None _ _ Hy); by simplify_eq].
  destruct (m !! "Title") as [t|] eqn:Ht; cbn in Hk;
    [rewrite (dict_getitem_Some _ _ _ Ht)
    |rewrite (dict_getitem_None _ _ Ht); by simplify_eq].
  destruct (m !! "Journal") as [j|] eqn:Hj; cbn in Hk;
    [rewrite (dict_getitem_Some _ _ _ Hj)
    |rewrite (dict_getitem_None _ _ Hj); by simplify_eq].
  destruct (m !! "Volume") as [v|] eqn:Hv; cbn in Hk;
    [rewrite (dict_getitem_Some _ _ _ Hv)
    |rewrite (dict_getitem_None _ _ Hv); by simplify_eq].
  destruct (m !! "Issue") as [i|] eqn:Hi; cbn in Hk;
    [rewrite (issue_segment_lookup _ _ Hi)
    |rewrite (issue_segment_None _ Hi); by simplify_eq].
  destruct (m !! "Pages") as [p|] eqn:Hp; cbn in Hk;
    [rewrite (dict_getitem_Some _ _ _ Hp)
    |rewrite (dict_getitem_None _ _ Hp); by simplify_eq].
  destruct (m !! "DOI") as [d|] eqn:Hd; cbn in Hk;
    [done|rewrite (doi_segment_None _ Hd); by simplify_eq].
Qed.

Lemma first_missing_None m :
  m !! "Error" = None → first_missing m = None → well_shaped m.
Proof.
  intros He Hk. split; [done|]. apply Forall_forall. intros k Hin.
  apply list_elem_of_In in Hin.
  pose proof (List.find_none _ _ Hk k Hin) as H. cbn in H.
  apply bool_decide_eq_false in H. by destruct (m !! k).
Qed.

(** X8. When the dictionary has no "Error" key and lacks one of the eight
    fields, [format_apa] raises [KeyError] for the first missing key in the
    order Author, Year, Title, Journal, Volume, Issue, Pages, DOI; this
    holds for both scripts. *)
Theorem format_apa_key_error (m : gmap string value) (k : string) :
  m !! "Error" = None → first_missing m = Some k →
  Excel.format_apa m = Raise (KeyError k)
  ∧ Word.format_apa m = Raise (KeyError k).
Proof. apply format_apa_first_missing. Qed.

Lemma format_apa_key_error_witness :
  Excel.format_apa {[ "Author" := VStr "Lee, A."; "Title" := VStr "Study X" ]}
  = Raise (KeyError "Year").
Proof.
  exact (proj1 (format_apa_key_error
                  {[ "Author" := VStr "Lee, A."; "Title" := VStr "Study X" ]}
                  "Year" eq_refl eq_refl)).
Defined.

Lemma format_apa_ok_shape m :
  m !! "Error" = None →
  (∃ v, Excel.format_apa m = Ok v) ∨ (∃ ref, Word.format_apa m = Ok ref) →
  well_shaped m.
Proof.
  intros He H. destruct (first_missing m) as [k|] eqn:Hk.
  - destruct (format_apa_first_missing m k He Hk) as [HE HW].
    rewrite HE, HW in H. by destruct H as [[? ?]|[? ?]].
  - by apply first_missing_None.
Qed.

(** X9. [format_apa] returns, rather than raising, exactly on the
    dictionaries that have an "Error" key or have all eight fields; this
    holds for both scripts. *)
Theorem format_apa_returns_iff (m : gmap string value) :
  ((∃ v, Excel.format_apa m = Ok v)
   ↔ is_Some (m !! "Error") ∨ well_shaped m)
  ∧ ((∃ ref, Word.format_apa m = Ok ref)
     ↔ is_Some (m !! "Error") ∨ well_shaped m).
Proof.
  assert (is_Some (m !! "Error") ∨ well_shaped m →
          (∃ v, Excel.format_apa m = Ok v)
          ∧ (∃ ref, Word.format_apa m = Ok ref)) as Hback.
  { intros [[v Hv]|Hm].
    - split; eexists.
      + unfold Excel.format_apa. rewrite decide_True by by rewrite Hv.
        by apply dict_getitem_Some.
      + unfold Word.format_apa. rewrite decide_True by by rewrite Hv.
        by rewrite (dict_getitem_Some _ _ _ Hv).
    - destruct (format_apa_well_shaped m Hm) as [[s Hs] [d Hd]]. eauto. }
  split; (split; [|apply Hback]); intros H;
    (destruct (m !! "Error") eqn:He; [left; eauto|right]);
    apply format_apa_ok_shape; auto.
Qed.

(** ** The paragraphs of the document *)

Lemma word_format_apa_inv m ref :
  Word.format_apa m = Ok ref →
  (∃ v, m !! "Error" = Some v ∧ ref = RefValue v)
  ∨ (∃ a y t j v i p d,
       m !! "Error" = None
       ∧ m !! "Author" = Some a ∧ m !! "Year" = Some y
       ∧ m !! "Title" = Some t ∧ m !! "Journal" = Some j
       ∧ m !! "Volume" = Some v ∧ m !! "Issue" = Some i
       ∧ m !! "Pages" = Some p ∧ m !! "DOI" = Some d
       ∧ ref = RefDict (reference_dict a y t j v (issue_text i) p
                          (doi_text d))).
Proof.
  intros H. destruct (m !! "Error") as [e|] eqn:He.
  - left. exists e. split; [done|]. unfold Word.format_apa in H.
    rewrite decide_True in H by by rewrite He.
    rewrite (dict_getitem_Some _ _ _ He) in H. cbn in H. by injection H as <-.
  - right. assert (well_shaped m) as Hm by (apply format_apa_ok_shape; eauto).
    destruct (well_shaped_fields m Hm)
      as (a & y & t & j & v & i & p & d & Ha & Hy & Ht & Hj & Hv & Hi & Hp
          & Hd).
    exists a, y, t, j, v, i, p, d.
    rewrite (word_format_apa_fields m a y t j v i p d) in H by done.
    split_and!; try done. by injection H as <-.
Qed.

Lemma paragraph_calls_dict a y t j v i p d :
  paragraph_calls (RefDict (reference_dict a y t j v i p d))
  = Ok [ AddParagraph None;
         AddRun (VStr (format_value a +:+ " (" +:+ format_value y +:+ "). "
                       +:+ format_value t +:+ ". "));
         SetBold false;
         AddRun j;
         SetItalic true;
         AddRun (VStr (", " +:+ format_value v +:+ i +:+ ", "
                       +:+ format_value p +:+ ". " +:+ d)) ].
Proof.
  unfold paragraph_calls, reference_dict.
  rewrite decide_True by (by rewrite lookup_insert_eq).
  unfold dict_getitem. by simplify_map_eq.
Qed.



Lemma paragraph_calls_format_apa m ref :
  Word.format_apa m = Ok ref →
  ∃ calls, paragraph_calls ref = Ok calls
           ∧ paragraphs calls = 1%nat ∧ Forall paragraph_call calls.
Proof.
  intros [(v & _ & ->)|(a & y & t & j & v & i & p & d & H)]%word_format_apa_inv.
  - eexists. split; [reflexivity|]. split; [done|]. by repeat constructor.
  - destruct H as (_ & _ & _ & _ & _ & _ & _ & _ & _ & ->).
    rewrite paragraph_calls_dict. eexists. split; [reflexivity|].
    split; [done|]. by repeat constructor.
Qed.

Lemma paragraphs_app c1 c2 :
  paragraphs (c1 ++ c2) = (paragraphs c1 + paragraphs c2)%nat.
Proof. unfold paragraphs. by rewrite List.filter_app, length_app. Qed.

Lemma paragraphs_loop_format_apa ms refs :
  Forall2 (λ m ref, Word.format_apa m = Ok ref) ms refs →
  ∃ body, paragraphs_loop refs = Ok body
          ∧ paragraphs body = length refs ∧ Forall paragraph_call body.
Proof.
  induction 1 as [|m ref ms refs Hm _ (body & Hb & Hn & Hp)].
  - by exists [].
  - destruct (paragraph_calls_format_apa m ref Hm) as (calls & Hc & Hn1 & Hp1).
    exists (calls ++ body)%list. cbn [paragraphs_loop]. rewrite Hc, Hb.
    split; [done|]. rewrite paragraphs_app, Hn1, Hn.
    split; [done|]. by apply Forall_app.
Qed.



(** ** The drivers *)

Lemma column_frame_values df name :
  column (frame_values df) name = map VStr <$> column df name.
Proof.
  induction df as [|[n cells] df IH]; [done|]. cbn.
  by case_decide.
Qed.

Lemma column_app_None {A} (df : list (string * list A)) name cells n :
  column df name = None →
  column (df ++ [(n, cells)]) name
  = if decide (n = name) then Some cells else None.
Proof.
  induction df as [|[n0 c0] df IH]; simpl.
  - done.
  - destruct (decide (n0 = name)); [done|apply IH].
Qed.

Lemma column_set_column_eq {A} (df : list (string * list A)) name cells :
  column (set_column name cells df) name = Some cells.
Proof.
  unfold set_column. case_decide as Hin.
  - induction df as [|[n0 c0] df IH]; cbn in *; [by destruct Hin|].
    destruct (decide (n0 = name)) as [->|Hne]; cbn.
    + by rewrite decide_True.
    + rewrite decide_False by done. by apply IH.
  - rewrite column_app_None, decide_True; [done..|].
    by destruct (column df name); [destruct Hin|].
Qed.

Lemma column_set_column_ne {A} (df : list (string * list A)) name cells n :
  n ≠ name → column (set_column name cells df) n = column df n.
Proof.
  intros Hn. unfold set_column. case_decide as Hin.
  - clear Hin. induction df as [|[n0 c0] df IH]; cbn; [done|].
    destruct (decide (n0 = name)) as [->|Hne]; cbn.
    + by rewrite !decide_False by done.
    + by rewrite IH.
  - clear Hin. induction df as [|[n0 c0] df IH]; cbn.
    + by rewrite decide_False by done.
    + by rewrite IH.
Qed.

Lemma references_loop_spec {A}
    (fetch : string → result response_data → gmap string value)
    (format : gmap string value → result A)
    (get : nat → string → result response_data) titles i acc :
  (∀ t r, ∃ a, format (fetch t r) = Ok a) →
  ∃ refs,
    references_loop fetch format get i titles acc = Ok (acc ++ refs)%list
    ∧ Forall2 (λ m ref, format m = Ok ref)
        (imap (λ k title, fetch title (get (i + k)%nat title)) titles) refs.
Proof.
  intros Htot. revert i acc.
  induction titles as [|title titles IH]; intros i acc.
  - exists []. cbn. by rewrite app_nil_r.
  - cbn [references_loop].
    destruct (Htot title (get i title)) as [a Ha]. rewrite Ha. cbn.
    destruct (IH (S i) (acc ++ [a])%list) as (refs & -> & Hrefs).
    exists (a :: refs). split; [by rewrite <- List.app_assoc|].
    cbn [imap]. constructor; [by rewrite Nat.add_0_r|].
    erewrite imap_ext; [exact Hrefs|]. intros k x _. cbn.
    by rewrite Nat.add_succ_r.
Qed.






